(** * generate_maps.py: cache, ledger and map rendering

    A shallow embedding of the wheat-growth map generator
    ([src/generate_maps.py]).  The script is one top-level sequence of
    statements; it is embedded as a function [run] from an environment (command
    line, replies of the remote imagery service, spreadsheet) and the files on
    disk to an outcome, the files left on disk and the trace of effects.

    Python values are embedded as follows:
    - [float] values as IEEE 754 binary64 numbers ([spec_float]), compared with
      [SFltb] as Python's [<] compares them;
    - [dict]s used as maps as [gmap string _];
    - [str] as [string], compared bytewise as Python compares code points of
      ASCII date strings;
    - [None] / a missing key as [None] of an [option]. *)

From Stdlib Require Import ZArith QArith Lqa Ascii String SpecFloat.
From stdpp Require Import base option list gmap strings sorting.

Local Open Scope Z_scope.

#[local] Set Warnings "-clear-no-such-hyp".

(** ** Numbers *)

(** The float literals of the colour tables, as the binary64 value nearest to
    the decimal literal. *)
Definition f0_1 : spec_float := S754_finite false 7205759403792794 (-56).
Definition f0_2 : spec_float := S754_finite false 7205759403792794 (-55).
Definition f0_3 : spec_float := S754_finite false 5404319552844595 (-54).
Definition f0_4 : spec_float := S754_finite false 7205759403792794 (-54).
Definition f0_6 : spec_float := S754_finite false 5404319552844595 (-53).
Definition f0_8 : spec_float := S754_finite false 7205759403792794 (-53).

(** Unary minus on a float (the literals [-0.3] and [-0.1]). *)
Definition fneg (f : spec_float) : spec_float :=
  match f with
  | S754_zero s => S754_zero (negb s)
  | S754_infinity s => S754_infinity (negb s)
  | S754_nan => S754_nan
  | S754_finite s m e => S754_finite (negb s) m e
  end.

(** [np.isnan] *)
Definition isnan (f : spec_float) : bool :=
  match f with
  | S754_nan => true
  | _ => false
  end.

(** ** Colour tables (lines 159-196) *)

Definition get_ndvi_color (ndvi : option spec_float) : string :=
  match ndvi with
  | None => "#808080"
  | Some v =>
      if isnan v then "#808080"
      else if SFltb v f0_2 then "#d73027"
      else if SFltb v f0_4 then "#fc8d59"
      else if SFltb v f0_6 then "#fee08b"
      else if SFltb v f0_8 then "#91cf60"
      else "#1a9850"
  end.

Definition get_ndwi_color (ndwi : option spec_float) : string :=
  match ndwi with
  | None => "#808080"
  | Some v =>
      if isnan v then "#808080"
      else if SFltb v (fneg f0_3) then "#8B4513"
      else if SFltb v (fneg f0_1) then "#D2691E"
      else if SFltb v f0_1 then "#F4A460"
      else if SFltb v f0_3 then "#87CEEB"
      else "#4169E1"
  end.

Definition get_gndvi_color (gndvi : option spec_float) : string :=
  match gndvi with
  | None => "#808080"
  | Some v =>
      if isnan v then "#808080"
      else if SFltb v f0_2 then "#FFFF00"
      else if SFltb v f0_4 then "#9ACD32"
      else if SFltb v f0_6 then "#32CD32"
      else if SFltb v f0_8 then "#228B22"
      else "#006400"
  end.

(** ** Index calculator (lines 71-80) *)

(** The bands of a pixel of [COPERNICUS/S2_SR_HARMONIZED] that the indices
    read: unsigned digital numbers. *)
Record s2_pixel := {
  B3 : N;
  B4 : N;
  B8 : N;
  B11 : N
}.

(** [image.divide(10000)] of [mask_s2_clouds] (line 74), on one band value;
    reflectances and indices are exact rationals here. *)
Definition divide_10000 (dn : N) : Q := Z.of_N dn # 10000.

(** Modelled from the spec: the remote operation [normalizedDifference], which
    [add_indices] calls and the repository does not define.  Section 4.1: the
    formula (a-b)/(a+b), undefined (null) when both inputs are zero. *)
Definition normalizedDifference (a b : Q) : option Q :=
  if Qeq_bool a 0 && Qeq_bool b 0 then None
  else Some ((a - b) / (a + b))%Q.

(** [add_indices] (lines 76-80): NDVI from (B8, B4), NDWI from (B8, B11) and
    GNDVI from (B8, B3). *)
Definition add_indices (p : s2_pixel) : option Q * option Q * option Q :=
  let b3 := divide_10000 (B3 p) in
  let b4 := divide_10000 (B4 p) in
  let b8 := divide_10000 (B8 p) in
  let b11 := divide_10000 (B11 p) in
  (normalizedDifference b8 b4,
   normalizedDifference b8 b11,
   normalizedDifference b8 b3).

(** ** Data model *)

(** A pixel record of a cache file (lines 255-261). *)
Record pixel := {
  lat : spec_float;
  lon : spec_float;
  ndvi : option spec_float;
  ndwi : option spec_float;
  gndvi : option spec_float
}.

(** A field record of a cache file (lines 241-246). *)
Record field_data := {
  polygon_uu : option string;
  address : string;
  boundary : list (spec_float * spec_float);
  pixels : list pixel
}.

(** The JSON document of one date (lines 208-211). *)
Record date_cache := {
  date : string;
  fields : list field_data
}.

(** The ledger [observation_history.json] (lines 106-110). *)
Record history := {
  dates : list string;
  date_to_index : gmap string string;
  pixel_counts : gmap string Z
}.

Definition empty_history : history :=
  {| dates := []; date_to_index := ∅; pixel_counts := ∅ |}.

(** ** Replies of the remote imagery service *)

(** The [geometry] of a sampled pixel feature, when it is a non-empty dict;
    [coordinates] is [None] when the key is missing. *)
Record point_geometry := {
  coordinates : option (list spec_float)
}.

(** A sampled pixel feature (line 248).  [geometry] is [None] when the key is
    missing, [None] or an empty dict, the cases in which [not geom] holds;
    a property bound to JSON null is bound to [None]. *)
Record pixel_feature := {
  geometry : option point_geometry;
  properties : gmap string (option spec_float)
}.

(** What [sample(...).getInfo()] does (lines 228-232): it raises, or returns a
    dict whose ['features'] key may be missing. *)
Inductive sample_reply :=
  | SampleRaises
  | SampleInfo (features : option (list pixel_feature)).

(** A feature of [fields_info['features']] (lines 215-225). *)
Record field_feature := {
  geometry_type : string;
  geometry_coordinates : list (list (spec_float * spec_float));
  properties_polygon_uu : option string
}.

(** Everything the run reads that is not a file of its own: the command line
    flag, the spreadsheet rows [(polygon_uu, address)] and the replies of the
    imagery service.  [collection_info] lists, for each image of the query,
    its ['system:index'] property when it has one; [sample idx i] is the reply
    to sampling the image [idx] over the field at position [i].  The query
    itself (region, date range from [--last-date], cloud filter) is evaluated
    remotely and enters only through these replies. *)
Record environment := {
  force_rebuild : bool;
  ee_initialize : bool;
  target_fields_df : list (string * string);
  image_count : Z;
  collection_info : list (option string);
  fields_info : list field_feature;
  sample : string → nat → sample_reply
}.

(** ** Files, effects and outcomes *)

Inductive path :=
  | CacheFile (d : string)
  | HistoryFile
  | IndexHtml
  | NdwiHtml
  | GndviHtml
  | StateFile.

(** Lines printed by the run (the banners and counters that no property
    depends on are left out). *)
Inductive message :=
  | MsgInitError
  | MsgNoNewImages
  | MsgNoNewDates
  | MsgProcessing (d : string)
  | MsgField (field_idx : nat) (addr : string)
  | MsgNoData
  | MsgPixels (n : Z)
  | MsgError
  | MsgDateDone (d : string) (n : Z)
  | MsgCacheMissing (d : string)
  | MsgLoaded (d : string) (n : Z).

Inductive event :=
  | EvPrint (m : message)
  | EvSample (target_index : string) (field_idx : nat)
  | EvWrite (p : path).

#[global] Instance path_eq_dec : EqDecision path.
Proof. solve_decision. Defined.

#[global] Instance message_eq_dec : EqDecision message.
Proof. solve_decision. Defined.

#[global] Instance event_eq_dec : EqDecision event.
Proof. solve_decision. Defined.

(** Shapes drawn on a layer (lines 328-371); the rectangle keeps the pixel
    centre, the colour and the value its bounds and popup are computed from. *)
Inductive shape :=
  | Rectangle (plat plon : spec_float) (color : string)
              (value : option spec_float) (addr d : string)
  | Polygon (coords : list (spec_float * spec_float)).

(** [FeatureGroup(name=..., show=...)] with the shapes added to it. *)
Record feature_group := {
  name : string;
  show : bool;
  children : list shape
}.

(** The values interpolated into the title block (lines 427-429). *)
Record title_block := {
  title_first : string;
  title_last : string;
  title_days : nat;
  title_fields : nat;
  title_pixels : Z;
  title_newest : string
}.

(** A saved map: its layers in the order added and its title block.  The
    layer control, the buttons and the legend are constant text, and the map
    centre is the centre of the bounding box the service returns for the
    fields. *)
Record html_map := {
  layers : list feature_group;
  title : title_block
}.

(** The files the run reads and writes: [output/cache/<date>.json] keyed by
    date, the ledger, the three maps and [last_processed.txt]. *)
Record files := {
  cache : gmap string date_cache;
  history_file : option history;
  index_html : option html_map;
  ndwi_html : option html_map;
  gndvi_html : option html_map;
  state_file : option string
}.

Inductive exception :=
  | ValueError
  | KeyError
  | IndexError.

Inductive outcome :=
  | Exited (code : Z)
  | Raised (e : exception)
  | Finished.

Record result := {
  res_outcome : outcome;
  res_files : files;
  res_trace : list event
}.

(** The in-memory ledger, the cache directory and the effects so far. *)
Record state := {
  st_history : history;
  st_cache : gmap string date_cache;
  st_trace : list event
}.

(** ** Helpers for Python built-ins *)

(** [enumerate] *)
Fixpoint enumerate_from {A} (n : nat) (l : list A) : list (nat * A) :=
  match l with
  | [] => []
  | x :: l' => (n, x) :: enumerate_from (S n) l'
  end.

Definition enumerate {A} (l : list A) : list (nat * A) := enumerate_from 0 l.

(** [sorted] on a list of strings. *)
Definition sorted (l : list string) : list string := merge_sort String.le l.

(** Python's order on [(str, str)] tuples. *)
Definition tuple_le (a b : string * string) : Prop :=
  if decide (a.1 = b.1) then String.le a.2 b.2 else String.le a.1 b.1.

#[global] Instance tuple_le_dec : RelDecision tuple_le.
Proof. intros a b. unfold tuple_le. destruct (decide (a.1 = b.1)); apply _. Defined.

(** [sorted(d.items())] *)
Definition sorted_items (m : gmap string string) : list (string * string) :=
  merge_sort tuple_le (map_to_list m).

(** [d.get(k)] on a dict whose values may be null. *)
Definition dict_get (props : gmap string (option spec_float)) (k : string)
  : option spec_float :=
  default None (props !! k).

(** [sum(d.values())] *)
Definition sum_values (m : gmap string Z) : Z :=
  map_fold (λ _ v acc, v + acc) 0 m.

(** ** Observation dates and their partition (lines 116-148) *)

Section observation_dates.
(** [strptime(idx[:8], '%Y%m%d')] followed by [strftime('%Y-%m-%d')]: the
    date string of an image identifier, or [None] when [strptime] raises
    [ValueError]. *)
Variable date_str_of_index : string → option string.

(** The loop of lines 119-126, filling [all_dates_from_gee]. *)
Fixpoint observation_dates (feats : list (option string))
    (all_dates_from_gee : gmap string string) : option (gmap string string) :=
  match feats with
  | [] => Some all_dates_from_gee
  | None :: rest => observation_dates rest all_dates_from_gee
  | Some idx :: rest =>
      match date_str_of_index idx with
      | None => None
      | Some date_str =>
          observation_dates rest (<[date_str := idx]> all_dates_from_gee)
      end
  end.
End observation_dates.

Definition set_date_to_index (h : history) (d idx : string) : history :=
  {| dates := dates h;
     date_to_index := <[d := idx]> (date_to_index h);
     pixel_counts := pixel_counts h |}.

(** One iteration of the loop of lines 132-141; the state is
    [(new_dates, existing_dates, history)]. *)
Definition classify_step (force : bool) (files_cache : gmap string date_cache)
    (st : list string * list string * history) (item : string * string)
  : list string * list string * history :=
  let '(new_dates, existing_dates, h) := st in
  let '(date_str, idx) := item in
  if force || bool_decide (files_cache !! date_str = None) then
    (new_dates ++ [date_str], existing_dates, set_date_to_index h date_str idx)
  else
    (new_dates, existing_dates ++ [date_str],
     match date_to_index h !! date_str with
     | None => set_date_to_index h date_str idx
     | Some _ => h
     end).

Definition classify (force : bool) (files_cache : gmap string date_cache)
    (h : history) (all_dates_from_gee : gmap string string)
  : list string * list string * history :=
  foldl (classify_step force files_cache) ([], [], h)
        (sorted_items all_dates_from_gee).

(** ** Processing one date (lines 201-280) *)

(** The address of a field in the spreadsheet (lines 220-221). *)
Definition lookup_address (df : list (string * string)) (uu : option string)
  : string :=
  match uu with
  | None => "不明"
  | Some u =>
      match filter (λ row, row.1 = u) df with
      | row :: _ => row.2
      | [] => "不明"
      end
  end.

Inductive pixel_step :=
  | PixelRaises
  | PixelSkipped
  | PixelStored (p : pixel).

(** The body of the loop of lines 248-261 for one sampled feature. *)
Definition pixel_of_feature (pf : pixel_feature) : pixel_step :=
  match geometry pf with
  | None => PixelSkipped
  | Some geom =>
      if bool_decide (properties pf = ∅) then PixelSkipped
      else
        match coordinates geom with
        | Some [plon; plat] =>
            PixelStored {| lat := plat; lon := plon;
                           ndvi := dict_get (properties pf) "NDVI";
                           ndwi := dict_get (properties pf) "NDWI";
                           gndvi := dict_get (properties pf) "GNDVI" |}
        | _ => PixelRaises
        end
  end.

(** The loop of lines 248-261; [None] when an iteration raises. *)
Fixpoint collect_pixels (feats : list pixel_feature) (acc : list pixel)
  : option (list pixel) :=
  match feats with
  | [] => Some acc
  | pf :: rest =>
      match pixel_of_feature pf with
      | PixelRaises => None
      | PixelSkipped => collect_pixels rest acc
      | PixelStored p => collect_pixels rest (acc ++ [p])
      end
  end.

(** How the [try] block of lines 227-269 ends for one field. *)
Inductive field_outcome :=
  | FieldError
  | FieldNoData
  | FieldOk (fd : field_data) (pixel_count : Z).

Definition try_field (reply : sample_reply) (feature : field_feature)
    (uu : option string) (addr : string) : field_outcome :=
  match reply with
  | SampleRaises => FieldError
  | SampleInfo None => FieldNoData
  | SampleInfo (Some feats) =>
      let pixel_count := Z.of_nat (length feats) in
      match head (geometry_coordinates feature) with
      | None => FieldError
      | Some ring =>
          match collect_pixels feats [] with
          | None => FieldError
          | Some px =>
              FieldOk {| polygon_uu := uu; address := addr;
                         boundary := ring; pixels := px |} pixel_count
          end
      end
  end.

(** One iteration of the loop of lines 215-269; the state is
    [(date_cache['fields'], date_pixels, trace)]. *)
Definition process_field (env : environment) (target_index : string)
    (st : list field_data * Z * list event) (item : nat * field_feature)
  : list field_data * Z * list event :=
  let '(date_fields, date_pixels, tr) := st in
  let '(field_idx, feature) := item in
  if bool_decide (geometry_type feature = "Polygon") then
    let uu := properties_polygon_uu feature in
    let addr := lookup_address (target_fields_df env) uu in
    let tr := tr ++ [EvPrint (MsgField field_idx addr);
                     EvSample target_index field_idx] in
    match try_field (sample env target_index field_idx) feature uu addr with
    | FieldError => (date_fields, date_pixels, tr ++ [EvPrint MsgError])
    | FieldNoData => (date_fields, date_pixels, tr ++ [EvPrint MsgNoData])
    | FieldOk fd pixel_count =>
        (date_fields ++ [fd], date_pixels + pixel_count,
         tr ++ [EvPrint (MsgPixels pixel_count)])
    end
  else st.

(** The body of the loop of lines 201-280 for one date. *)
Definition process_date (env : environment) (st : state) (d : string)
  : option exception * state :=
  let h := st_history st in
  match date_to_index h !! d with
  | None => (Some KeyError, st)
  | Some target_index =>
      let '(date_fields, date_pixels, tr) :=
        foldl (process_field env target_index)
              ([], 0, st_trace st ++ [EvPrint (MsgProcessing d)])
              (enumerate (fields_info env)) in
      (None,
       {| st_history :=
            {| dates := if bool_decide (d ∈ dates h) then dates h
                        else dates h ++ [d];
               date_to_index := date_to_index h;
               pixel_counts := <[d := date_pixels]> (pixel_counts h) |};
          st_cache :=
            <[d := {| date := d; fields := date_fields |}]> (st_cache st);
          st_trace := tr ++ [EvWrite (CacheFile d);
                             EvPrint (MsgDateDone d date_pixels)] |})
  end.

(** The loop of lines 201-280. *)
Fixpoint process_dates (env : environment) (new_dates : list string)
    (st : state) : option exception * state :=
  match new_dates with
  | [] => (None, st)
  | d :: rest =>
      match process_date env st d with
      | (Some e, st') => (Some e, st')
      | (None, st') => process_dates env rest st'
      end
  end.

(** ** Rendering (lines 285-378) *)

(** The three [folium.Map] objects, as the layers added to them so far. *)
Record canvas := {
  m_ndvi : list feature_group;
  m_ndwi : list feature_group;
  m_gndvi : list feature_group
}.

Definition empty_canvas : canvas :=
  {| m_ndvi := []; m_ndwi := []; m_gndvi := [] |}.

(** What one field adds to one layer: a rectangle per pixel (lines 316-365),
    then the outline with its [(lon, lat)] pairs swapped (lines 368-371). *)
Definition field_shapes (color_of : option spec_float → string)
    (value_of : pixel → option spec_float) (d : string) (fd : field_data)
  : list shape :=
  map (λ p, Rectangle (lat p) (lon p) (color_of (value_of p)) (value_of p)
                      (address fd) d) (pixels fd)
  ++ [Polygon (map (λ c, (c.2, c.1)) (boundary fd))].

Definition make_layer (prefix : string) (color_of : option spec_float → string)
    (value_of : pixel → option spec_float) (show_layer : bool) (d : string)
    (dc : date_cache) : feature_group :=
  {| name := prefix +:+ d;
     show := show_layer;
     children := concat (map (field_shapes color_of value_of d) (fields dc)) |}.

(** One iteration of the loop of lines 292-378. *)
Definition render_date (files_cache : gmap string date_cache)
    (all_dates : list string) (st : canvas * list event) (d : string)
  : canvas * list event :=
  let '(m, tr) := st in
  match files_cache !! d with
  | None => (m, tr ++ [EvPrint (MsgCacheMissing d)])
  | Some dc =>
      let show_layer := bool_decide (last all_dates = Some d) in
      let date_pixel_count :=
        Z.of_nat (length (concat (map pixels (fields dc)))) in
      ({| m_ndvi := m_ndvi m ++
            [make_layer "NDVI_" get_ndvi_color ndvi show_layer d dc];
          m_ndwi := m_ndwi m ++
            [make_layer "NDWI_" get_ndwi_color ndwi show_layer d dc];
          m_gndvi := m_gndvi m ++
            [make_layer "GNDVI_" get_gndvi_color gndvi show_layer d dc] |},
       tr ++ [EvPrint (MsgLoaded d date_pixel_count)])
  end.

Definition render (files_cache : gmap string date_cache) (h : history)
    (tr : list event) : canvas * list event :=
  let all_dates := sorted (dates h) in
  foldl (render_date files_cache all_dates) (empty_canvas, tr) all_dates.

(** The subscripts of the title f-strings that can be out of range. *)
Inductive title_subscript :=
  | AllDatesFirst   (* all_dates[0] *)
  | AllDatesLast    (* all_dates[-1] *)
  | NewDatesLast.   (* new_dates[-1] *)

(** The values of the title f-strings (lines 416-429), in the order in which
    the f-string evaluates them; [inl s] when the subscript [s] raises
    [IndexError]. *)
Definition build_title (h : history) (n_fields : nat) (new_dates : list string)
  : title_subscript + title_block :=
  let all_dates := sorted (dates h) in
  let total_pixels := sum_values (pixel_counts h) in
  match head all_dates with
  | None => inl AllDatesFirst
  | Some first =>
      match last all_dates with
      | None => inl AllDatesLast
      | Some lst =>
          match last new_dates with
          | None => inl NewDatesLast
          | Some newest =>
              inr {| title_first := first; title_last := lst;
                     title_days := length all_dates;
                     title_fields := n_fields;
                     title_pixels := total_pixels;
                     title_newest := newest |}
          end
      end
  end.

(** ** The whole run *)

Definition load_history (fs : files) : history :=
  default empty_history (history_file fs).

(** The files after cache writes only. *)
Definition with_cache (fs : files) (c : gmap string date_cache) : files :=
  {| cache := c; history_file := history_file fs;
     index_html := index_html fs; ndwi_html := ndwi_html fs;
     gndvi_html := gndvi_html fs; state_file := state_file fs |}.

Section run.
Variable date_str_of_index : string → option string.

(** [all_dates_from_gee] (lines 116-126). *)
Definition gee_dates (env : environment) : option (gmap string string) :=
  observation_dates date_str_of_index (collection_info env) ∅.

(** [new_dates] after the partition loop, when the run gets there. *)
Definition found_new_dates (env : environment) (fs : files)
  : option (list string) :=
  m ← gee_dates env;
  Some (classify (force_rebuild env) (cache fs) (load_history fs) m).1.1.

(** The script from the initialisation of the service (line 24) to its
    last line. *)
Definition run (env : environment) (fs : files) : result :=
  if negb (ee_initialize env) then
    {| res_outcome := Exited 1; res_files := fs;
       res_trace := [EvPrint MsgInitError] |}
  else if bool_decide (image_count env = 0) && negb (force_rebuild env) then
    {| res_outcome := Exited 0; res_files := fs;
       res_trace := [EvPrint MsgNoNewImages] |}
  else
    match gee_dates env with
    | None =>
        {| res_outcome := Raised ValueError; res_files := fs;
           res_trace := [] |}
    | Some all_dates_from_gee =>
        let '(new_dates, existing_dates, h) :=
          classify (force_rebuild env) (cache fs) (load_history fs)
                   all_dates_from_gee in
        if bool_decide (length new_dates = 0%nat)
           && negb (force_rebuild env) then
          {| res_outcome := Exited 0; res_files := fs;
             res_trace := [EvPrint MsgNoNewDates] |}
        else
          match process_dates env new_dates
                  {| st_history := h; st_cache := cache fs;
                     st_trace := [] |} with
          | (Some e, st) =>
              {| res_outcome := Raised e;
                 res_files := with_cache fs (st_cache st);
                 res_trace := st_trace st |}
          | (None, st) =>
              let '(m, tr) :=
                render (st_cache st) (st_history st) (st_trace st) in
              match build_title (st_history st)
                      (length (fields_info env)) new_dates with
              | inl _ =>
                  {| res_outcome := Raised IndexError;
                     res_files := with_cache fs (st_cache st);
                     res_trace := tr |}
              | inr t =>
                  {| res_outcome := Finished;
                     res_files :=
                       {| cache := st_cache st;
                          history_file := Some (st_history st);
                          index_html :=
                            Some {| layers := m_ndvi m; title := t |};
                          ndwi_html :=
                            Some {| layers := m_ndwi m; title := t |};
                          gndvi_html :=
                            Some {| layers := m_gndvi m; title := t |};
                          state_file :=
                            match last new_dates with
                            | Some d => Some d
                            | None => state_file fs
                            end |};
                     res_trace :=
                       tr ++ [EvWrite IndexHtml; EvWrite NdwiHtml;
                              EvWrite GndviHtml; EvWrite HistoryFile]
                          ++ match last new_dates with
                             | Some _ => [EvWrite StateFile]
                             | None => []
                             end |}
              end
          end
    end.
End run.

(** ** A date function for the examples *)

Definition digit_value (a : ascii) : option nat :=
  let n := nat_of_ascii a in
  if bool_decide (48 ≤ n ≤ 57)%nat then Some (n - 48)%nat else None.

Definition days_in_month (y m : nat) : nat :=
  if bool_decide (m = 2)%nat then
    if bool_decide ((y mod 4 = 0 ∧ y mod 100 ≠ 0) ∨ y mod 400 = 0)%nat
    then 29%nat else 28%nat
  else if bool_decide (m = 4 ∨ m = 6 ∨ m = 9 ∨ m = 11)%nat then 30%nat
  else 31%nat.

(** The date string of an identifier that starts with eight ASCII digits
    [YYYYMMDD] naming a calendar date, as Sentinel-2 identifiers do; the
    examples below use identifiers of this shape only. *)
Definition sentinel_date_str (idx : string) : option string :=
  match idx with
  | String y1 (String y2 (String y3 (String y4
      (String m1 (String m2 (String d1 (String d2 _))))))) =>
      ds ← mapM digit_value [y1; y2; y3; y4; m1; m2; d1; d2];
      match ds with
      | [a; b; c; e; f; g; i; j] =>
          let y := (a * 1000 + b * 100 + c * 10 + e)%nat in
          let m := (f * 10 + g)%nat in
          let dd := (i * 10 + j)%nat in
          if bool_decide (1 ≤ y ∧ 1 ≤ m ≤ 12 ∧ 1 ≤ dd ≤ days_in_month y m)%nat
          then Some (String y1 (String y2 (String y3 (String y4
                 (String "-" (String m1 (String m2
                 (String "-" (String d1 (String d2 EmptyString))))))))))
          else None
      | _ => None
      end
  | _ => None
  end.

(** ** Example inputs *)

Definition example_pixel : pixel_feature :=
  {| geometry := Some {| coordinates := Some [f0_2; f0_4] |};
     properties := {[ "NDVI" := Some f0_6 ]} |}.

Definition example_field (uu : string) : field_feature :=
  {| geometry_type := "Polygon";
     geometry_coordinates := [[(f0_1, f0_2); (f0_3, f0_4)]];
     properties_polygon_uu := Some uu |}.

Definition example_index : string := "20251203T012345_20251203T012900_T54SVJ".

(** One image and two fields; sampling the first field returns two features,
    one of them without geometry, and sampling the second field raises. *)
Definition example_env : environment :=
  {| force_rebuild := false;
     ee_initialize := true;
     target_fields_df := [("f-1", "field one"); ("f-2", "field two")];
     image_count := 1;
     collection_info := [Some example_index];
     fields_info := [example_field "f-1"; example_field "f-2"];
     sample := λ _ i,
       if bool_decide (i = 0%nat) then
         SampleInfo (Some [example_pixel;
                           {| geometry := None; properties := ∅ |}])
       else SampleRaises |}.

(** A forced rebuild of the same fields for which the query returns no
    image. *)
Definition forced_empty_env : environment :=
  {| force_rebuild := true;
     ee_initialize := true;
     target_fields_df := [("f-1", "field one"); ("f-2", "field two")];
     image_count := 0;
     collection_info := [];
     fields_info := [example_field "f-1"; example_field "f-2"];
     sample := λ _ _, SampleRaises |}.

(** A forced rebuild of [example_env]. *)
Definition forced_env : environment :=
  {| force_rebuild := true;
     ee_initialize := ee_initialize example_env;
     target_fields_df := target_fields_df example_env;
     image_count := image_count example_env;
     collection_info := collection_info example_env;
     fields_info := fields_info example_env;
     sample := sample example_env |}.

(** Two images of different dates over the same fields. *)
Definition two_dates_env : environment :=
  {| force_rebuild := false;
     ee_initialize := true;
     target_fields_df := target_fields_df example_env;
     image_count := 2;
     collection_info :=
       [Some "20251208T012345_20251208T012900_T54SVJ"; Some example_index];
     fields_info := fields_info example_env;
     sample := sample example_env |}.

Definition no_files : files :=
  {| cache := ∅; history_file := None; index_html := None;
     ndwi_html := None; gndvi_html := None; state_file := None |}.

(** The files a first run of [example_env] leaves. *)
Definition cached_files : files :=
  res_files (run sentinel_date_str example_env no_files).


(** ** Vocabulary of the properties *)

(** A five-colour table with thresholds [t1 < t2 < t3 < t4] whose buckets are
    closed below and open above, in the order of binary64 numbers. *)
Definition half_open_buckets (color_of : option spec_float → string)
    (t1 t2 t3 t4 : spec_float) (c0 c1 c2 c3 c4 : string) : Prop :=
  ∀ v : spec_float,
    (color_of (Some v) = c0 ↔ SFltb v t1 = true) ∧
    (color_of (Some v) = c1 ↔ SFleb t1 v = true ∧ SFltb v t2 = true) ∧
    (color_of (Some v) = c2 ↔ SFleb t2 v = true ∧ SFltb v t3 = true) ∧
    (color_of (Some v) = c3 ↔ SFleb t3 v = true ∧ SFltb v t4 = true) ∧
    (color_of (Some v) = c4 ↔ SFleb t4 v = true).

(** A date is new when the rebuild is forced or it has no cache file. *)
Definition is_new_date (force : bool) (files_cache : gmap string date_cache)
    (d : string) : Prop :=
  force = true ∨ files_cache !! d = None.

#[global] Instance is_new_date_dec force files_cache d :
  Decision (is_new_date force files_cache d).
Proof. unfold is_new_date. apply _. Defined.

(** The dates of [all_dates_from_gee] in the order of the partition loop. *)
Definition gee_keys (m : gmap string string) : list string :=
  (sorted_items m).*1.

(** What the [try] block yields for a field of the loop of lines 215-269;
    [None] for a field that is not a polygon. *)
Definition field_result (env : environment) (idx : string)
    (item : nat * field_feature) : option field_outcome :=
  if bool_decide (geometry_type item.2 = "Polygon") then
    let uu := properties_polygon_uu item.2 in
    Some (try_field (sample env idx item.1) item.2 uu
                    (lookup_address (target_fields_df env) uu))
  else None.

(** The field record of a successfully sampled field. *)
Definition field_record (env : environment) (idx : string)
    (item : nat * field_feature) : option field_data :=
  match field_result env idx item with
  | Some (FieldOk fd _) => Some fd
  | _ => None
  end.

Definition date_records (env : environment) (idx : string)
    (items : list (nat * field_feature)) : list field_data :=
  omap (field_record env idx) items.

(** The sampled features a reply returns. *)
Definition reply_features (r : sample_reply) : list pixel_feature :=
  match r with
  | SampleInfo (Some feats) => feats
  | _ => []
  end.

(** The number of sampled features returned for a field, counted when the
    field is successfully sampled. *)
Definition sampled_count (env : environment) (idx : string)
    (item : nat * field_feature) : Z :=
  match field_record env idx item with
  | Some _ => Z.of_nat (length (reply_features (sample env idx item.1)))
  | None => 0
  end.

Definition sampled_feature_total (env : environment) (idx : string)
    (items : list (nat * field_feature)) : Z :=
  foldr Z.add 0 (sampled_count env idx <$> items).

(** The number of pixel records stored in a cache file. *)
Definition stored_pixel_total (dc : date_cache) : Z :=
  foldr Z.add 0 ((λ fd, Z.of_nat (length (pixels fd))) <$> fields dc).

(** The effects of one iteration of the field loop. *)
Definition field_events (env : environment) (idx : string)
    (item : nat * field_feature) : list event :=
  match field_result env idx item with
  | None => []
  | Some r =>
      [EvPrint (MsgField item.1
                  (lookup_address (target_fields_df env)
                                  (properties_polygon_uu item.2)));
       EvSample idx item.1;
       EvPrint match r with
               | FieldError => MsgError
               | FieldNoData => MsgNoData
               | FieldOk _ n => MsgPixels n
               end]
  end.

(** The cache record, the pixel count and the effects of processing the
    image [idx] for the date [d]. *)
Definition date_entry (env : environment) (idx d : string) : date_cache :=
  {| date := d;
     fields := date_records env idx (enumerate (fields_info env)) |}.

Definition date_pixel_count (env : environment) (idx : string) : Z :=
  sampled_feature_total env idx (enumerate (fields_info env)).

Definition date_events (env : environment) (idx d : string) : list event :=
  [EvPrint (MsgProcessing d)]
  ++ concat (field_events env idx <$> enumerate (fields_info env))
  ++ [EvWrite (CacheFile d); EvPrint (MsgDateDone d (date_pixel_count env idx))].

(** Every date of the ledger has a cache file. *)
Definition ledger_consistent (h : history) (c : gmap string date_cache)
  : Prop :=
  ∀ d, d ∈ dates h → is_Some (c !! d).

#[global] Instance ledger_consistent_dec h c : Decision (ledger_consistent h c).
Proof.
  refine (cast_if (decide (Forall (λ d, is_Some (c !! d)) (dates h))));
    unfold ledger_consistent; by rewrite Forall_forall in *.
Defined.

Definition files_consistent (fs : files) : Prop :=
  ledger_consistent (load_history fs) (cache fs).

(** An index of the band pair [(a, b)] is the normalized difference, within
    [-1, 1], when [a + b] is not zero, and null when both are zero. *)
Definition index_in_range (a b : Q) (index : option Q) : Prop :=
  (¬ (a + b == 0)%Q →
   ∃ v, index = Some v ∧ (v == (a - b) / (a + b))%Q ∧
        (-1 <= v)%Q ∧ (v <= 1)%Q) ∧
  ((a == 0)%Q ∧ (b == 0)%Q → index = None).

(** An effect that reprocesses the date [d] or rewrites its cache file. *)
Definition reprocesses (d : string) (e : event) : Prop :=
  e = EvWrite (CacheFile d) ∨ e = EvPrint (MsgProcessing d).

Definition is_write (e : event) : Prop :=
  match e with
  | EvWrite _ => True
  | _ => False
  end.

(** The layers the rendering loop adds to one map for the dates [ds]. *)
Definition layers_for (prefix : string)
    (color_of : option spec_float → string)
    (value_of : pixel → option spec_float)
    (c : gmap string date_cache) (all_dates ds : list string)
  : list feature_group :=
  omap (λ d, make_layer prefix color_of value_of
               (bool_decide (last all_dates = Some d)) d <$> c !! d) ds.

(** The line the rendering loop prints for a date. *)
Definition render_event (c : gmap string date_cache) (d : string) : event :=
  match c !! d with
  | None => EvPrint (MsgCacheMissing d)
  | Some dc =>
      EvPrint (MsgLoaded d (Z.of_nat (length (concat (map pixels (fields dc))))))
  end.

(** The identifier the loop of lines 119-126 leaves for the date [d]: the
    last one of the query whose date string is [d]. *)
Definition last_index_for (date_str_of_index : string → option string)
    (d : string) (feats : list (option string)) : option string :=
  last (filter (λ idx, date_str_of_index idx = Some d) (omap id feats)).

(** Two images of one date, with an image without identifier between them. *)
Definition same_date_env : environment :=
  {| force_rebuild := false;
     ee_initialize := true;
     target_fields_df := target_fields_df example_env;
     image_count := 3;
     collection_info :=
       [Some "20251203T012345_20251203T012900_T54SVJ"; None;
        Some "20251203T012345_20251203T012900_T54SVK"];
     fields_info := fields_info example_env;
     sample := sample example_env |}.

(** A query whose second image has an identifier that names no date. *)
Definition bad_index_env : environment :=
  {| force_rebuild := false;
     ee_initialize := true;
     target_fields_df := target_fields_df example_env;
     image_count := 2;
     collection_info := [Some example_index; Some "2025130XT012345"];
     fields_info := fields_info example_env;
     sample := sample example_env |}.


(** A sampled feature the loop of lines 248-261 passes over. *)
Definition lacks_geometry_or_properties (pf : pixel_feature) : Prop :=
  geometry pf = None ∨ properties pf = ∅.

#[global] Instance lacks_geometry_or_properties_dec pf :
  Decision (lacks_geometry_or_properties pf).
Proof. unfold lacks_geometry_or_properties. apply _. Defined.

(** The pixel record [p] is the one stored for the sampled feature [pf]. *)
Definition pixel_stored_for (pf : pixel_feature) (p : pixel) : Prop :=
  ∃ geom, geometry pf = Some geom ∧
          coordinates geom = Some [lon p; lat p] ∧
          ndvi p = dict_get (properties pf) "NDVI" ∧
          ndwi p = dict_get (properties pf) "NDWI" ∧
          gndvi p = dict_get (properties pf) "GNDVI".

(** A feature with geometry and properties whose coordinates are missing. *)
Definition broken_pixel : pixel_feature :=
  {| geometry := Some {| coordinates := None |};
     properties := {[ "NDVI" := Some f0_6 ]} |}.


Definition is_rectangle (s : shape) : Prop :=
  match s with
  | Rectangle _ _ _ _ _ _ => True
  | Polygon _ => False
  end.

#[global] Instance is_rectangle_dec s : Decision (is_rectangle s).
Proof. destruct s; apply _. Defined.



(** The writes with which a finished run ends. *)
Definition final_writes : list event :=
  [EvWrite IndexHtml; EvWrite NdwiHtml; EvWrite GndviHtml;
   EvWrite HistoryFile; EvWrite StateFile].

(** The mask of [mask_s2_clouds] (lines 72-73) on the [QA60] value of one
    pixel: [bitwiseAnd], [eq] and [And] have the meaning of their names. *)
Definition cloud_mask (qa : Z) : bool :=
  (Z.land qa (Z.shiftl 1 10) =? 0) && (Z.land qa (Z.shiftl 1 11) =? 0).

(** [mask_s2_clouds] (lines 71-74) on one band value of a pixel: [None] when
    the pixel is masked. *)
Definition mask_s2_clouds (qa : Z) (dn : N) : option Q :=
  if cloud_mask qa then Some (divide_10000 dn) else None.

(** Every cache file holds the record of the date it is named after. *)
Definition cache_well_keyed (c : gmap string date_cache) : Prop :=
  ∀ d dc, c !! d = Some dc → date dc = d.

#[global] Instance cache_well_keyed_dec c : Decision (cache_well_keyed c).
Proof.
  refine (cast_if (decide (map_Forall (λ d dc, date dc = d) c))); done.
Defined.

(** Every date of the ledger has a source identifier and a pixel count. *)
Definition ledger_complete (h : history) : Prop :=
  ∀ d, d ∈ dates h →
    is_Some (date_to_index h !! d) ∧ is_Some (pixel_counts h !! d).

#[global] Instance ledger_complete_dec h : Decision (ledger_complete h).
Proof.
  refine (cast_if (decide (Forall (λ d, is_Some (date_to_index h !! d) ∧
                                        is_Some (pixel_counts h !! d))
                                  (dates h))));
    unfold ledger_complete; by rewrite Forall_forall in *.
Defined.

(** A spreadsheet that lists the identifier ["f-1"] twice. *)
Definition duplicate_rows : list (string * string) :=
  [("f-0", "field zero"); ("f-1", "field one"); ("f-1", "field one again")].

(** * Properties *)

(** ** Order of binary64 numbers *)

Lemma SFcompare_antisym x y :
  SFcompare y x = CompOpp <$> SFcompare x y.
Proof.
  destruct x as [[]|[]| |[] m1 e1], y as [[]|[]| |[] m2 e2]; simpl; try done.
  all: change (Pcompare ?a ?b Eq) with (a ?= b)%positive.
  - rewrite (Z.compare_antisym e1 e2), (Pos.compare_antisym m1 m2).
    destruct (e1 ?= e2), (m1 ?= m2)%positive; done.
  - rewrite (Z.compare_antisym e1 e2), (Pos.compare_antisym m1 m2).
    destruct (e1 ?= e2), (m1 ?= m2)%positive; done.
Qed.

Lemma SFltb_false_iff v t :
  isnan v = false → isnan t = false → SFltb v t = false ↔ SFleb t v = true.
Proof.
  intros Hv Ht. unfold SFltb, SFleb. rewrite (SFcompare_antisym v t).
  destruct (SFcompare v t) as [[]|] eqn:E; simpl; try (split; done).
  exfalso.
  destruct v as [[]|[]| |[] ? ?], t as [[]|[]| |[] ? ?]; simpl in *; done.
Qed.

Lemma SFleb_negb_ltb v t :
  isnan v = false → isnan t = false → SFleb t v = negb (SFltb v t).
Proof.
  intros Hv Ht. destruct (SFltb v t) eqn:E; simpl.
  - destruct (SFleb t v) eqn:E'; [|done].
    apply SFltb_false_iff in E'; [congruence|done..].
  - by apply SFltb_false_iff.
Qed.

Lemma SFltb_trans a b c :
  SFltb a b = true → SFltb b c = true → SFltb a c = true.
Proof.
  unfold SFltb.
  destruct a as [[]|[]| |[] m1 e1], b as [[]|[]| |[] m2 e2],
           c as [[]|[]| |[] m3 e3]; simpl; try done.
  all: change (Pcompare ?a ?b Eq) with (a ?= b)%positive.
  all: destruct (Z.compare_spec e1 e2), (Z.compare_spec e2 e3); try done;
       destruct (Z.compare_spec e1 e3); try lia; try done.
  all: destruct (Pos.compare_spec m1 m2), (Pos.compare_spec m2 m3); try done;
       destruct (Pos.compare_spec m1 m3); try lia; try done.
Qed.

Lemma SFltb_nan_l t : SFltb S754_nan t = false.
Proof. done. Qed.

Lemma SFleb_nan_r t : SFleb t S754_nan = false.
Proof. by destruct t. Qed.

(** ** Colour tables *)

(** NaN falls in no bucket; any other value falls in the bucket the ladder of
    comparisons selects, and the thresholds are increasing. *)
Ltac ladder t1 t2 t3 t4 :=
  let v := fresh "v" in
  let Hn := fresh "Hn" in
  intros v; destruct (isnan v) eqn:Hn;
  [ destruct v; try discriminate Hn;
    cbn [get_ndvi_color get_ndwi_color get_gndvi_color isnan];
    rewrite !SFltb_nan_l, !SFleb_nan_r;
    repeat split; intros; destruct_and?; discriminate
  | rewrite (SFleb_negb_ltb v t1 Hn eq_refl), (SFleb_negb_ltb v t2 Hn eq_refl),
            (SFleb_negb_ltb v t3 Hn eq_refl), (SFleb_negb_ltb v t4 Hn eq_refl);
    pose proof (λ H, SFltb_trans v t1 t2 H eq_refl);
    pose proof (λ H, SFltb_trans v t2 t3 H eq_refl);
    pose proof (λ H, SFltb_trans v t3 t4 H eq_refl);
    cbn [get_ndvi_color get_ndwi_color get_gndvi_color]; rewrite Hn;
    destruct (SFltb v t1), (SFltb v t2), (SFltb v t3), (SFltb v t4);
    simpl in *;
    repeat match goal with
           | H : true = true → _ |- _ => specialize (H eq_refl)
           end;
    try discriminate;
    repeat split; intros; destruct_and?; auto; try discriminate ].

(** C7: the thresholds of the three colour tables are lower-inclusive and
    upper-exclusive.  An NDVI of exactly 0.2 gets the colour ['#fc8d59'] of the
    0.2-0.4 bucket and not ['#d73027'], and for each index a value has the
    colour of a bucket exactly when it is at least the bucket's lower threshold
    and below its upper one (the lowest bucket has no lower threshold, the
    highest no upper one). *)
Theorem color_buckets_half_open :
  get_ndvi_color (Some f0_2) = "#fc8d59" ∧
  get_ndvi_color (Some f0_2) ≠ "#d73027" ∧
  half_open_buckets get_ndvi_color f0_2 f0_4 f0_6 f0_8
    "#d73027" "#fc8d59" "#fee08b" "#91cf60" "#1a9850" ∧
  half_open_buckets get_ndwi_color (fneg f0_3) (fneg f0_1) f0_1 f0_3
    "#8B4513" "#D2691E" "#F4A460" "#87CEEB" "#4169E1" ∧
  half_open_buckets get_gndvi_color f0_2 f0_4 f0_6 f0_8
    "#FFFF00" "#9ACD32" "#32CD32" "#228B22" "#006400".
Proof.
  split; [done|]. split; [done|].
  split; [|split].
  - ladder f0_2 f0_4 f0_6 f0_8.
  - ladder (fneg f0_3) (fneg f0_1) f0_1 f0_3.
  - ladder f0_2 f0_4 f0_6 f0_8.
Qed.

(** ** Partition of the observation dates *)

Lemma is_new_date_bool force c d :
  force || bool_decide (c !! d = None) = bool_decide (is_new_date force c d).
Proof.
  destruct force.
  - symmetry. apply bool_decide_eq_true_2. by left.
  - apply bool_decide_ext. unfold is_new_date. split; [by right|by intros [|]].
Qed.

Lemma classify_fold force c items : ∀ new ex h,
  ∃ h', foldl (classify_step force c) (new, ex, h) items =
    (new ++ filter (is_new_date force c) items.*1,
     ex ++ filter (λ d, ¬ is_new_date force c d) items.*1, h').
Proof.
  induction items as [|[d idx] items IH]; intros new ex h; simpl.
  - exists h. by rewrite !app_nil_r.
  - rewrite is_new_date_bool, !filter_cons. simpl.
    destruct (decide (is_new_date force c d)) as [Hn|Hn].
    + rewrite bool_decide_eq_true_2 by done.
      rewrite decide_False by tauto.
      destruct (IH (new ++ [d]) ex (set_date_to_index h d idx)) as [h' ->].
      exists h'. by rewrite <-app_assoc.
    + rewrite bool_decide_eq_false_2 by done.
      rewrite decide_True by done.
      edestruct (IH new (ex ++ [d])) as [h' ->].
      exists h'. by rewrite <-app_assoc.
Qed.


Lemma gee_keys_perm m : gee_keys m ≡ₚ (map_to_list m).*1.
Proof. unfold gee_keys, sorted_items. by rewrite merge_sort_Permutation. Qed.

Lemma gee_keys_NoDup m : NoDup (gee_keys m).
Proof. rewrite gee_keys_perm. apply NoDup_fst_map_to_list. Qed.

Lemma elem_of_gee_keys m d : d ∈ gee_keys m ↔ d ∈ dom m.
Proof.
  rewrite gee_keys_perm, elem_of_dom, list_elem_of_fmap. split.
  - intros [[d' idx] [-> H]]. apply elem_of_map_to_list in H. by exists idx.
  - intros [idx H]. exists (d, idx). split; [done|]. by apply elem_of_map_to_list.
Qed.

Lemma classify_lists force c h m :
  (classify force c h m).1.1 = filter (is_new_date force c) (gee_keys m) ∧
  (classify force c h m).1.2 = filter (λ d, ¬ is_new_date force c d) (gee_keys m).
Proof.
  unfold classify.
  destruct (classify_fold force c (sorted_items m) [] [] h) as [h' ->]. done.
Qed.

Lemma count_NoDup (l : list string) d :
  NoDup l → d ∈ l → length (filter (d =.) l) = 1%nat.
Proof.
  induction 1 as [|x l Hx Hl IH]; [by intros ?%elem_of_nil|].
  rewrite filter_cons. intros [->|Hd]%elem_of_cons.
  - rewrite decide_True by done. simpl. f_equal.
    apply length_zero_iff_nil. 
    destruct (filter (x =.) l) as [|y l'] eqn:E; [done|].
    assert (y ∈ filter (x =.) l) as [<- ?]%list_elem_of_filter by (rewrite E; left). done.
  - rewrite decide_False by (intros <-; done). auto.
Qed.

(** C1: every date returned by the imagery query is classified as new exactly
    when the rebuild is forced or the date has no cache file, as existing
    otherwise, and occurs exactly once in the two lists together. *)
Theorem classify_partition force c h m d :
  d ∈ dom m →
  let '(new_dates, existing_dates, _) := classify force c h m in
  (d ∈ new_dates ↔ force = true ∨ c !! d = None) ∧
  (d ∈ existing_dates ↔ ¬ (force = true ∨ c !! d = None)) ∧
  length (filter (d =.) (new_dates ++ existing_dates)) = 1%nat.
Proof.
  intros Hd. destruct (classify_lists force c h m) as [Hn He].
  destruct (classify force c h m) as [[new ex] h']. simpl in *. subst.
  apply elem_of_gee_keys in Hd.
  rewrite !list_elem_of_filter. split_and!.
  - unfold is_new_date. tauto.
  - unfold is_new_date. tauto.
  - rewrite (filter_app_complement _ (gee_keys m)).
    apply count_NoDup; [apply gee_keys_NoDup|done].
Qed.

(** ** Processing the new dates *)

Lemma elem_of_concat {A} (x : A) (ls : list (list A)) :
  x ∈ concat ls ↔ ∃ l, x ∈ l ∧ l ∈ ls.
Proof.
  induction ls as [|l ls IH]; simpl.
  - split; [by intros ?%elem_of_nil|by intros (? & _ & ?%elem_of_nil)].
  - rewrite elem_of_app, IH. split.
    + intros [?|(l' & ? & ?)]; [exists l|exists l']; split; try done;
        [left|by right].
    + intros (l' & ? & [->|?]%elem_of_cons); [by left|right; by exists l'].
Qed.

Lemma collect_pixels_length feats : ∀ acc px,
  collect_pixels feats acc = Some px →
  (length px ≤ length acc + length feats)%nat.
Proof.
  induction feats as [|pf feats IH]; intros acc px; simpl.
  - intros [= <-]. lia.
  - destruct (pixel_of_feature pf); [done|..]; intros H%IH.
    + lia.
    + rewrite length_app in H. simpl in H. lia.
Qed.

Lemma try_field_ok r f uu a fd n :
  try_field r f uu a = FieldOk fd n →
  n = Z.of_nat (length (reply_features r)) ∧
  Z.of_nat (length (pixels fd)) ≤ n.
Proof.
  unfold try_field. destruct r as [|[feats|]]; try done.
  destruct (head _); [|done].
  destruct (collect_pixels feats []) as [px|] eqn:E; [|done].
  intros [= <- <-]. simpl. split; [done|].
  apply collect_pixels_length in E. simpl in E. lia.
Qed.

Lemma process_field_step env idx fds px tr item :
  process_field env idx (fds, px, tr) item =
    (fds ++ option_list (field_record env idx item),
     px + sampled_count env idx item,
     tr ++ field_events env idx item).
Proof.
  destruct item as [i f].
  unfold process_field, sampled_count, field_events, field_record, field_result.
  simpl. destruct (bool_decide (geometry_type f = "Polygon")).
  - destruct (try_field _ _ _ _) as [| |fd n] eqn:E; simpl.
    + by rewrite app_nil_r, Z.add_0_r, <-app_assoc.
    + by rewrite app_nil_r, Z.add_0_r, <-app_assoc.
    + apply try_field_ok in E as [<- _]. by rewrite <-app_assoc.
  - simpl. by rewrite !app_nil_r, Z.add_0_r.
Qed.

Lemma process_field_fold env idx items : ∀ fds px tr,
  foldl (process_field env idx) (fds, px, tr) items =
    (fds ++ date_records env idx items,
     px + sampled_feature_total env idx items,
     tr ++ concat (field_events env idx <$> items)).
Proof.
  induction items as [|item items IH]; intros fds px tr.
  - simpl. by rewrite !app_nil_r, Z.add_0_r.
  - cbn [foldl]. rewrite process_field_step, IH.
    unfold date_records, sampled_feature_total. cbn [omap list_omap fmap list_fmap foldr concat].
    rewrite <-!app_assoc, <-Z.add_assoc.
    by destruct (field_record env idx item).
Qed.

Lemma process_date_ok env st d idx :
  date_to_index (st_history st) !! d = Some idx →
  process_date env st d =
    (None,
     {| st_history :=
          {| dates := if bool_decide (d ∈ dates (st_history st))
                      then dates (st_history st)
                      else dates (st_history st) ++ [d];
             date_to_index := date_to_index (st_history st);
             pixel_counts :=
               <[d := date_pixel_count env idx]> (pixel_counts (st_history st)) |};
        st_cache := <[d := date_entry env idx d]> (st_cache st);
        st_trace := st_trace st ++ date_events env idx d |}).
Proof.
  intros H. unfold process_date. rewrite H, process_field_fold. simpl.
  unfold date_events, date_entry, date_pixel_count. by rewrite <-!app_assoc.
Qed.

Lemma process_date_raises env st d :
  date_to_index (st_history st) !! d = None →
  process_date env st d = (Some KeyError, st).
Proof. intros H. unfold process_date. by rewrite H. Qed.

Lemma field_events_shape env idx item ev :
  ev ∈ field_events env idx item →
  (∃ a, ev = EvPrint (MsgField item.1 a)) ∨ ev = EvSample idx item.1 ∨
  ev = EvPrint MsgError ∨ ev = EvPrint MsgNoData ∨ ∃ n, ev = EvPrint (MsgPixels n).
Proof.
  unfold field_events. destruct (field_result env idx item) as [r|].
  - rewrite !elem_of_cons, elem_of_nil. destruct r; naive_solver.
  - by intros ?%elem_of_nil.
Qed.

Lemma date_events_reprocesses env idx d0 d ev :
  ev ∈ date_events env idx d0 → reprocesses d ev → d = d0.
Proof.
  unfold date_events, reprocesses.
  rewrite !elem_of_app, !elem_of_cons, !elem_of_nil.
  intros [[->|[]]|[H|[->|[->|[]]]]]; [naive_solver| |naive_solver..].
  apply elem_of_concat in H as (evs & Hev & (item & -> & _)%list_elem_of_fmap).
  apply field_events_shape in Hev. naive_solver.
Qed.

Lemma ledger_consistent_step h c d dc pc :
  ledger_consistent h c →
  ledger_consistent
    {| dates := if bool_decide (d ∈ dates h) then dates h else dates h ++ [d];
       date_to_index := date_to_index h; pixel_counts := pc |}
    (<[d := dc]> c).
Proof.
  intros Hc d' Hd'. simpl in Hd'. rewrite lookup_insert.
  destruct (decide (d = d')); [done|]. apply Hc.
  case_bool_decide; [done|].
  apply elem_of_app in Hd' as [?|?%list_elem_of_singleton]; [done|congruence].
Qed.

Lemma process_date_frame env st d e st' :
  process_date env st d = (e, st') →
  date_to_index (st_history st') = date_to_index (st_history st) ∧
  (∀ d', d' ≠ d →
     st_cache st' !! d' = st_cache st !! d' ∧
     pixel_counts (st_history st') !! d' = pixel_counts (st_history st) !! d') ∧
  dom (st_cache st) ⊆ dom (st_cache st') ∧
  dates (st_history st) `prefix_of` dates (st_history st') ∧
  (ledger_consistent (st_history st) (st_cache st) →
   ledger_consistent (st_history st') (st_cache st')) ∧
  ∃ delta, st_trace st' = st_trace st ++ delta ∧
           ∀ d' ev, ev ∈ delta → reprocesses d' ev → d' = d.
Proof.
  destruct (date_to_index (st_history st) !! d) as [idx|] eqn:E.
  - rewrite (process_date_ok _ _ _ _ E). intros [= <- <-]. simpl.
    split_and!; [done| | | | |].
    + intros d' Hd'. by rewrite !lookup_insert_ne.
    + rewrite dom_insert. set_solver.
    + case_bool_decide; [done|]. by apply prefix_app_r.
    + apply ledger_consistent_step.
    + eexists. split; [done|]. apply date_events_reprocesses.
  - rewrite (process_date_raises _ _ _ E). intros [= <- <-].
    split_and!; try done.
    exists []. split; [by rewrite app_nil_r|]. by intros ?? ?%elem_of_nil.
Qed.

Lemma process_dates_frame env ds : ∀ st e st',
  process_dates env ds st = (e, st') →
  date_to_index (st_history st') = date_to_index (st_history st) ∧
  (∀ d, d ∉ ds →
     st_cache st' !! d = st_cache st !! d ∧
     pixel_counts (st_history st') !! d = pixel_counts (st_history st) !! d) ∧
  dom (st_cache st) ⊆ dom (st_cache st') ∧
  dates (st_history st) `prefix_of` dates (st_history st') ∧
  (ledger_consistent (st_history st) (st_cache st) →
   ledger_consistent (st_history st') (st_cache st')) ∧
  ∃ delta, st_trace st' = st_trace st ++ delta ∧
           ∀ d ev, ev ∈ delta → reprocesses d ev → d ∈ ds.
Proof.
  induction ds as [|d0 ds IH]; intros st e st'; simpl.
  - intros [= <- <-]. split_and!; try done.
    exists []. split; [by rewrite app_nil_r|]. by intros ?? ?%elem_of_nil.
  - destruct (process_date env st d0) as [[e1|] st1] eqn:E1;
      apply process_date_frame in E1
        as (Hdti & Hframe & Hdom & Hpre & Hinv & delta1 & Htr1 & Hre1).
    + intros [= <- <-]. split_and!; try done.
      * intros d Hd. apply Hframe. set_solver.
      * exists delta1. split; [done|]. intros d ev Hev Hr.
        rewrite (Hre1 d ev Hev Hr). left.
    + intros (Hdti' & Hframe' & Hdom' & Hpre' & Hinv' & delta2 & Htr2 & Hre2)%IH.
      split_and!.
      * congruence.
      * intros d Hd. apply not_elem_of_cons in Hd as [Hne Hd].
        destruct (Hframe' d Hd) as [-> ->]. by apply Hframe.
      * set_solver.
      * by etrans.
      * auto.
      * exists (delta1 ++ delta2). split; [by rewrite Htr2, Htr1, app_assoc|].
        intros d ev [Hev|Hev]%elem_of_app Hr.
        -- rewrite (Hre1 d ev Hev Hr). left.
        -- right. eauto.
Qed.

Lemma process_dates_ok env ds : ∀ st,
  (∀ d, d ∈ ds → is_Some (date_to_index (st_history st) !! d)) →
  ∃ st', process_dates env ds st = (None, st') ∧
    ∀ d idx, d ∈ ds → date_to_index (st_history st) !! d = Some idx →
      st_cache st' !! d = Some (date_entry env idx d) ∧
      pixel_counts (st_history st') !! d = Some (date_pixel_count env idx) ∧
      d ∈ dates (st_history st').
Proof.
  induction ds as [|d0 ds IH]; intros st Hall; simpl.
  - exists st. split; [done|]. by intros ?? ?%elem_of_nil.
  - destruct (Hall d0) as [idx0 E0]; [left|].
    rewrite (process_date_ok _ _ _ _ E0).
    set (st1 := {| st_history := _ |}).
    destruct (IH st1) as (st' & Hrun & Hres).
    { intros d Hd. simpl. apply Hall. by right. }
    exists st'. split; [done|].
    intros d idx Hd Hidx.
    destruct (decide (d ∈ ds)) as [Hin|Hnin].
    + by apply Hres.
    + apply elem_of_cons in Hd as [->|?]; [|done].
      assert (idx = idx0) as -> by congruence.
      apply process_dates_frame in Hrun as (_ & Hframe & _ & Hpre & _).
      destruct (Hframe d0 Hnin) as [-> ->]. simpl.
      rewrite !lookup_insert_eq. split_and!; [done..|].
      eapply elem_of_prefix; [|exact Hpre]. simpl.
      case_bool_decide; [done|]. apply elem_of_app. right. left.
Qed.

(** ** The ledger after the partition *)

Lemma classify_step_history force c st item :
  dates (classify_step force c st item).2 = dates st.2 ∧
  pixel_counts (classify_step force c st item).2 = pixel_counts st.2 ∧
  (∀ d, d ≠ item.1 →
     date_to_index (classify_step force c st item).2 !! d
     = date_to_index st.2 !! d) ∧
  (is_new_date force c item.1 →
     date_to_index (classify_step force c st item).2 !! item.1 = Some item.2).
Proof.
  destruct st as [[new ex] h], item as [d0 idx]. unfold classify_step.
  rewrite is_new_date_bool. case_bool_decide as Hn; simpl.
  - split_and!; [done..| |].
    + intros d Hd. by rewrite lookup_insert_ne.
    + intros _. by rewrite lookup_insert_eq.
  - destruct (date_to_index h !! d0) eqn:E; simpl.
    + split_and!; done.
    + split_and!; [done..| |done].
      intros d Hd. by rewrite lookup_insert_ne.
Qed.

Lemma classify_fold_history force c items : ∀ st,
  let st' := foldl (classify_step force c) st items in
  dates st'.2 = dates st.2 ∧
  pixel_counts st'.2 = pixel_counts st.2 ∧
  (∀ d, d ∉ items.*1 → date_to_index st'.2 !! d = date_to_index st.2 !! d) ∧
  (NoDup items.*1 → ∀ d idx, (d, idx) ∈ items → is_new_date force c d →
     date_to_index st'.2 !! d = Some idx).
Proof.
  induction items as [|item items IH]; intros st; simpl.
  - split_and!; try done. by intros _ ?? ?%elem_of_nil.
  - destruct (IH (classify_step force c st item)) as (Hd & Hp & Hf & Hn).
    destruct (classify_step_history force c st item) as (Hd1 & Hp1 & Hf1 & Hn1).
    split_and!.
    + congruence.
    + congruence.
    + intros d [Hne Hd']%not_elem_of_cons. rewrite Hf by done. by apply Hf1.
    + intros [Hnin Hnd]%NoDup_cons d idx [<-|Hin]%elem_of_cons Hnew.
      * rewrite Hf by done. by apply Hn1.
      * by apply Hn.
Qed.

Lemma elem_of_sorted_items m d idx :
  (d, idx) ∈ sorted_items m ↔ m !! d = Some idx.
Proof.
  unfold sorted_items. rewrite merge_sort_Permutation.
  apply elem_of_map_to_list.
Qed.

Lemma classify_history force c h m :
  let h' := (classify force c h m).2 in
  dates h' = dates h ∧
  pixel_counts h' = pixel_counts h ∧
  ∀ d idx, m !! d = Some idx → is_new_date force c d →
    date_to_index h' !! d = Some idx.
Proof.
  unfold classify.
  destruct (classify_fold_history force c (sorted_items m) ([], [], h))
    as (Hd & Hp & _ & Hn).
  split_and!; [done..|]. intros d idx Hm Hnew.
  apply Hn; [apply gee_keys_NoDup| |done]. by apply elem_of_sorted_items.
Qed.

Lemma sorted_nil_iff l : sorted l = [] ↔ l = [].
Proof.
  unfold sorted. split; [|by intros ->].
  intros H. apply Permutation_nil_r. rewrite <-H.
  by rewrite merge_sort_Permutation.
Qed.

Lemma with_cache_same fs : with_cache fs (cache fs) = fs.
Proof. by destruct fs. Qed.

(** ** Rendering *)

Lemma render_date_step c all m tr d :
  render_date c all (m, tr) d =
    ({| m_ndvi := m_ndvi m ++ layers_for "NDVI_" get_ndvi_color ndvi c all [d];
        m_ndwi := m_ndwi m ++ layers_for "NDWI_" get_ndwi_color ndwi c all [d];
        m_gndvi :=
          m_gndvi m ++ layers_for "GNDVI_" get_gndvi_color gndvi c all [d] |},
     tr ++ [render_event c d]).
Proof.
  unfold render_date, layers_for, render_event. simpl.
  destruct (c !! d); simpl; [done|].
  rewrite !app_nil_r. by destruct m.
Qed.

Lemma layers_for_cons prefix color value c all d ds :
  layers_for prefix color value c all (d :: ds)
  = layers_for prefix color value c all [d]
    ++ layers_for prefix color value c all ds.
Proof. unfold layers_for. simpl. by destruct (c !! d). Qed.

Lemma render_fold c all ds : ∀ m tr,
  foldl (render_date c all) (m, tr) ds =
    ({| m_ndvi := m_ndvi m ++ layers_for "NDVI_" get_ndvi_color ndvi c all ds;
        m_ndwi := m_ndwi m ++ layers_for "NDWI_" get_ndwi_color ndwi c all ds;
        m_gndvi :=
          m_gndvi m ++ layers_for "GNDVI_" get_gndvi_color gndvi c all ds |},
     tr ++ (render_event c <$> ds)).
Proof.
  induction ds as [|d ds IH]; intros m tr.
  - simpl. rewrite !app_nil_r. by destruct m.
  - cbn [foldl]. rewrite render_date_step, IH. cbn [m_ndvi m_ndwi m_gndvi].
    rewrite !(layers_for_cons _ _ _ c all d ds), fmap_cons, <-!app_assoc.
    done.
Qed.

Lemma render_spec c h tr :
  render c h tr =
    ({| m_ndvi :=
          layers_for "NDVI_" get_ndvi_color ndvi c (sorted (dates h))
                     (sorted (dates h));
        m_ndwi :=
          layers_for "NDWI_" get_ndwi_color ndwi c (sorted (dates h))
                     (sorted (dates h));
        m_gndvi :=
          layers_for "GNDVI_" get_gndvi_color gndvi c (sorted (dates h))
                     (sorted (dates h)) |},
     tr ++ (render_event c <$> sorted (dates h))).
Proof. unfold render. by rewrite render_fold. Qed.

Lemma layers_for_summary prefix color value c all ds :
  (λ l, (name l, show l)) <$> layers_for prefix color value c all ds
  = (λ d, (prefix +:+ d, bool_decide (last all = Some d)))
      <$> filter (λ d, is_Some (c !! d)) ds.
Proof.
  induction ds as [|d ds IH]; [done|].
  rewrite (layers_for_cons _ _ _ c all d ds), fmap_app, IH, filter_cons.
  destruct (decide (is_Some (c !! d))) as [[dc E]|E%eq_None_not_Some].
  - unfold layers_for at 1. simpl. by rewrite E.
  - unfold layers_for at 1. simpl. by rewrite E.
Qed.

Lemma StronglySorted_last_max (l : list string) x :
  StronglySorted String.le l → last l = Some x → ∀ y, y ∈ l → String.le y x.
Proof.
  induction 1 as [|z l Hl IH Hz]; [done|].
  destruct l as [|z' l'].
  - intros [= <-] y ->%list_elem_of_singleton. done.
  - rewrite last_cons_cons. intros Hlast y [->|Hy]%elem_of_cons; [|by apply IH].
    rewrite Forall_forall in Hz. apply Hz.
    by apply last_Some_elem_of.
Qed.

Lemma sorted_last_max l x :
  last (sorted l) = Some x → x ∈ l ∧ ∀ y, y ∈ l → String.le y x.
Proof.
  intros Hlast. split.
  - apply last_Some_elem_of in Hlast. unfold sorted in Hlast.
    by rewrite merge_sort_Permutation in Hlast.
  - intros y Hy. eapply StronglySorted_last_max; [|done|].
    + apply StronglySorted_merge_sort; apply _.
    + unfold sorted. by rewrite merge_sort_Permutation.
Qed.

Lemma layers_for_names prefix color value c all ds :
  name <$> layers_for prefix color value c all ds
  = (λ d, prefix +:+ d) <$> filter (λ d, is_Some (c !! d)) ds.
Proof.
  pose proof (f_equal (fmap fst) (layers_for_summary prefix color value c all ds))
    as H.
  by rewrite <-!list_fmap_compose in H.
Qed.

Lemma layers_for_names_NoDup prefix color value c l :
  NoDup l → NoDup (name <$> layers_for prefix color value c (sorted l) (sorted l)).
Proof.
  intros Hl. rewrite layers_for_names.
  apply (NoDup_fmap_2 (String.app prefix)), NoDup_filter.
  unfold sorted. by rewrite merge_sort_Permutation.
Qed.

(** C8: rendering creates, on each of the three maps, one layer per ledger
    date whose cache file exists, named after the index and the date, in
    ascending date order (with distinct names when the ledger lists no date
    twice); a layer is visible by default exactly when its date is the last
    of the sorted ledger dates, and that date is the most recent one of the
    ledger. *)
Theorem render_layers c h tr :
  let m := (render c h tr).1 in
  let all_dates := sorted (dates h) in
  let cached := filter (λ d, is_Some (c !! d)) all_dates in
  let summary := fmap (λ l, (name l, show l)) in
  summary (m_ndvi m)
  = (λ d, ("NDVI_" +:+ d, bool_decide (last all_dates = Some d))) <$> cached ∧
  summary (m_ndwi m)
  = (λ d, ("NDWI_" +:+ d, bool_decide (last all_dates = Some d))) <$> cached ∧
  summary (m_gndvi m)
  = (λ d, ("GNDVI_" +:+ d, bool_decide (last all_dates = Some d))) <$> cached ∧
  (NoDup (dates h) →
   NoDup (name <$> m_ndvi m) ∧ NoDup (name <$> m_ndwi m) ∧
   NoDup (name <$> m_gndvi m)) ∧
  ∀ latest, last all_dates = Some latest →
    latest ∈ dates h ∧ ∀ d, d ∈ dates h → String.le d latest.
Proof.
  rewrite render_spec. simpl. rewrite !layers_for_summary.
  split_and!; [done..| |apply sorted_last_max].
  intros Hnd. split_and!; by apply layers_for_names_NoDup.
Qed.

Lemma render_event_is_print c d : ∃ msg, render_event c d = EvPrint msg.
Proof. unfold render_event. destruct (c !! d); eauto. Qed.

Lemma render_events_no_write c ds :
  Forall (λ e, ¬ is_write e) (render_event c <$> ds).
Proof.
  apply Forall_fmap, Forall_forall. intros d _. simpl.
  destruct (render_event_is_print c d) as [msg ->]. by intros [].
Qed.

Lemma render_events_no_reprocess c d ds :
  Forall (λ e, ¬ reprocesses d e) (render_event c <$> ds).
Proof.
  apply Forall_fmap, Forall_forall. intros d' _. simpl.
  unfold render_event, reprocesses. destruct (c !! d'); by intros [|].
Qed.

(** ** The whole run *)

Lemma ledger_consistent_mono h c c' :
  dom c ⊆ dom c' → ledger_consistent h c → ledger_consistent h c'.
Proof.
  intros Hsub Hc d Hd. apply elem_of_dom, Hsub, elem_of_dom. by apply Hc.
Qed.

Section run_properties.
Variable date_str_of_index : string → option string.

(** C3: when the rebuild is not forced and no new date is found (the query
    has no image, or every date it returns is cached), the run exits with
    status 0, leaves the ledger, the cache files, the three maps and the
    marker file as they were, and writes no file. *)
Theorem early_exit_leaves_files env fs :
  ee_initialize env = true →
  force_rebuild env = false →
  image_count env = 0 ∨ found_new_dates date_str_of_index env fs = Some [] →
  res_outcome (run date_str_of_index env fs) = Exited 0 ∧
  res_files (run date_str_of_index env fs) = fs ∧
  Forall (λ e, ¬ is_write e) (res_trace (run date_str_of_index env fs)).
Proof.
  intros Hinit Hforce Hzero. unfold run. rewrite Hinit, Hforce. simpl.
  case_bool_decide as Hcount; simpl.
  { split_and!; [done..|]. repeat constructor. by intros []. }
  destruct Hzero as [?|Hzero]; [done|].
  unfold found_new_dates in Hzero. rewrite Hforce in Hzero.
  destruct (gee_dates date_str_of_index env) as [m|]; [|done]. simpl in Hzero.
  destruct (classify false (cache fs) (load_history fs) m) as [[new ex] h].
  simpl in Hzero. injection Hzero as ->. simpl.
  split_and!; [done..|]. repeat constructor. by intros [].
Qed.

(** C9: a forced rebuild for which the query yields no new date passes both
    early exits and raises [IndexError] in the title f-string: at
    [all_dates[0]] when the ledger has no date, at [new_dates[-1]] otherwise.
    No map, ledger or marker file is written. *)
Theorem forced_run_without_dates_raises env fs m :
  ee_initialize env = true →
  force_rebuild env = true →
  gee_dates date_str_of_index env = Some m →
  (classify true (cache fs) (load_history fs) m).1.1 = [] →
  res_outcome (run date_str_of_index env fs) = Raised IndexError ∧
  build_title (classify true (cache fs) (load_history fs) m).2
              (length (fields_info env)) []
  = inl match dates (load_history fs) with
        | [] => AllDatesFirst
        | _ => NewDatesLast
        end ∧
  res_files (run date_str_of_index env fs) = fs ∧
  Forall (λ e, ¬ is_write e) (res_trace (run date_str_of_index env fs)).
Proof.
  intros Hinit Hforce Hm Hnew. unfold run. rewrite Hinit, Hforce, Hm.
  rewrite andb_false_r. simpl.
  destruct (classify_history true (cache fs) (load_history fs) m)
    as (Hdates & _ & _).
  destruct (classify true (cache fs) (load_history fs) m) as [[new ex] h].
  simpl in *. subst new. simpl.
  assert (build_title h (length (fields_info env)) []
          = inl match dates (load_history fs) with
                | [] => AllDatesFirst
                | _ => NewDatesLast
                end) as Htitle.
  { unfold build_title. rewrite Hdates.
    destruct (dates (load_history fs)) as [|d ds] eqn:E; [done|].
    destruct (sorted (d :: ds)) as [|d' ds'] eqn:E'.
    { by apply (proj1 (sorted_nil_iff _)) in E'. }
    simpl. destruct (last (d' :: ds')) eqn:El; [done|].
    by apply last_None in El. }
  rewrite Htitle, render_spec. simpl.
  rewrite with_cache_same. split_and!; [done..|].
  apply render_events_no_write.
Qed.


(** The maps a finished run saves are the rendering of the cache files and
    the ledger it leaves. *)
Lemma finished_run_maps env fs :
  let r := run date_str_of_index env fs in
  res_outcome r = Finished →
  ∃ h t,
    history_file (res_files r) = Some h ∧
    index_html (res_files r)
    = Some {| layers := m_ndvi (render (cache (res_files r)) h []).1;
              title := t |} ∧
    ndwi_html (res_files r)
    = Some {| layers := m_ndwi (render (cache (res_files r)) h []).1;
              title := t |} ∧
    gndvi_html (res_files r)
    = Some {| layers := m_gndvi (render (cache (res_files r)) h []).1;
              title := t |}.
Proof.
  unfold run.
  destruct (negb (ee_initialize env)); [done|].
  destruct (_ && _); [done|].
  destruct (gee_dates date_str_of_index env) as [m|]; [|done].
  destruct (classify _ _ _ m) as [[new ex] h0].
  destruct (_ && _); [done|].
  destruct (process_dates env new _) as [[e|] st]; [done|].
  rewrite render_spec.
  destruct (build_title _ _ _) as [s|t]; [done|]. simpl. intros _.
  exists (st_history st), t. by rewrite render_spec.
Qed.

(** C4: if every date of the ledger on disk has a cache file when the run
    starts, the same holds for the files the run leaves, however it ends; the
    run deletes no cache file and removes no date from the ledger. *)
Theorem run_preserves_ledger_consistency env fs :
  files_consistent fs →
  files_consistent (res_files (run date_str_of_index env fs)) ∧
  dom (cache fs) ⊆ dom (cache (res_files (run date_str_of_index env fs))) ∧
  dates (load_history fs)
    `prefix_of` dates (load_history (res_files (run date_str_of_index env fs))).
Proof.
  intros Hfs. unfold run.
  destruct (negb (ee_initialize env)); [done|].
  destruct (_ && _); [done|].
  destruct (gee_dates date_str_of_index env) as [m|]; [|done].
  destruct (classify_history (force_rebuild env) (cache fs) (load_history fs) m)
    as (Hdates & _ & _).
  destruct (classify _ _ _ m) as [[new ex] h]. simpl in Hdates.
  destruct (_ && _); [done|].
  destruct (process_dates env new _) as [e st] eqn:Hrun.
  apply process_dates_frame in Hrun as (_ & _ & Hdom & Hpre & Hinv & _).
  simpl in *. rewrite Hdates in Hpre.
  assert (ledger_consistent (st_history st) (st_cache st)) as Hst.
  { apply Hinv. intros d Hd. apply Hfs. by rewrite <-Hdates. }
  destruct e as [e|].
  { simpl. split_and!; [|done..].
    unfold files_consistent. by eapply ledger_consistent_mono. }
  rewrite render_spec.
  destruct (build_title _ _ _) as [s|t]; simpl.
  - split_and!; [|done..].
    unfold files_consistent. by eapply ledger_consistent_mono.
  - done.
Qed.

(** C2: without the force flag, a run leaves every cache file that exists
    when it starts with the content it had; the date of such a file is not
    processed again and its cache file is not written. *)
Theorem unforced_run_keeps_cache_files env fs d dc :
  force_rebuild env = false →
  cache fs !! d = Some dc →
  cache (res_files (run date_str_of_index env fs)) !! d = Some dc ∧
  Forall (λ e, ¬ reprocesses d e) (res_trace (run date_str_of_index env fs)).
Proof.
  intros Hforce Hd. unfold run. rewrite Hforce.
  destruct (negb (ee_initialize env)).
  { split; [done|]. repeat constructor. by intros [|]. }
  destruct (_ && _).
  { split; [done|]. repeat constructor. by intros [|]. }
  destruct (gee_dates date_str_of_index env) as [m|]; [|by split].
  destruct (classify_lists false (cache fs) (load_history fs) m) as [Hnew _].
  destruct (classify _ _ _ m) as [[new ex] h]. simpl in Hnew.
  destruct (_ && _).
  { split; [done|]. repeat constructor. by intros [|]. }
  assert (d ∉ new) as Hnin.
  { rewrite Hnew, list_elem_of_filter. intros [[?|?] _]; congruence. }
  destruct (process_dates env new _) as [e st] eqn:Hrun.
  apply process_dates_frame in Hrun
    as (_ & Hframe & _ & _ & _ & delta & Htr & Hdelta).
  destruct (Hframe d Hnin) as [Hc _]. simpl in *.
  assert (Forall (λ e, ¬ reprocesses d e) (st_trace st)) as Htrace.
  { rewrite Htr. apply Forall_forall. intros ev Hev Hr. eauto. }
  destruct e as [e|].
  { simpl. split; [congruence|done]. }
  rewrite render_spec.
  destruct (build_title _ _ _) as [s|t]; simpl.
  - split; [congruence|]. apply Forall_app. split; [done|].
    apply render_events_no_reprocess.
  - split; [congruence|]. rewrite !Forall_app. split_and!; [done|..].
    + apply render_events_no_reprocess.
    + repeat constructor; try by intros [|].
      destruct (last new); repeat constructor. by intros [|].
Qed.
End run_properties.

(** ** Per-field failures and pixel counts *)













(** ** Index calculator *)

Lemma divide_10000_nonneg dn : (0 <= divide_10000 dn)%Q.
Proof. unfold divide_10000, Qle. simpl. lia. Qed.

Lemma normalizedDifference_range a b :
  (0 <= a)%Q → (0 <= b)%Q → index_in_range a b (normalizedDifference a b).
Proof.
  intros Ha Hb. unfold normalizedDifference. split.
  - intros Hsum.
    destruct (Qeq_bool a 0 && Qeq_bool b 0) eqn:E.
    { apply andb_prop in E as [Ea%Qeq_bool_eq Eb%Qeq_bool_eq].
      exfalso. apply Hsum. rewrite Ea, Eb. reflexivity. }
    assert (0 < a + b)%Q as Hpos.
    { destruct (Qlt_le_dec 0 (a + b)) as [|Hle]; [done|].
      exfalso. apply Hsum. apply Qle_antisym; [done|]. lra. }
    eexists. split; [done|]. split; [reflexivity|]. split.
    + apply Qle_shift_div_l; [done|]. lra.
    + apply Qle_shift_div_r; [done|]. lra.
  - intros [Ea Eb].
    rewrite (Qeq_eq_bool _ _ Ea), (Qeq_eq_bool _ _ Eb). done.
Qed.

(** C5: each of NDVI, NDWI and GNDVI is the normalized difference
    (a-b)/(a+b) of its band pair (B8 with B4, B11 and B3); it lies in [-1, 1]
    whenever a+b is not zero and is null when both reflectances are zero. *)
Theorem indices_in_range p :
  let b3 := divide_10000 (B3 p) in
  let b4 := divide_10000 (B4 p) in
  let b8 := divide_10000 (B8 p) in
  let b11 := divide_10000 (B11 p) in
  let '(i_ndvi, i_ndwi, i_gndvi) := add_indices p in
  index_in_range b8 b4 i_ndvi ∧
  index_in_range b8 b11 i_ndwi ∧
  index_in_range b8 b3 i_gndvi.
Proof.
  simpl. split_and!; apply normalizedDifference_range;
    apply divide_10000_nonneg.
Qed.

(** ** The properties on the example inputs *)

Lemma classify_partition_witness :
  "2025-12-03" ∈ dom ({[ "2025-12-03" := example_index ]} : gmap string string) ∧
  let '(new_dates, existing_dates, _) :=
    classify false (cache cached_files) empty_history
             {[ "2025-12-03" := example_index ]} in
  ("2025-12-03" ∈ new_dates
   ↔ false = true ∨ cache cached_files !! "2025-12-03" = None) ∧
  ("2025-12-03" ∈ existing_dates
   ↔ ¬ (false = true ∨ cache cached_files !! "2025-12-03" = None)) ∧
  length (filter ("2025-12-03" =.) (new_dates ++ existing_dates)) = 1%nat.
Proof.
  assert ("2025-12-03"
          ∈ dom ({[ "2025-12-03" := example_index ]} : gmap string string))
    as Hd by (apply elem_of_dom; exists example_index; vm_compute; reflexivity).
  split; [exact Hd|].
  exact (classify_partition false (cache cached_files) empty_history _ _ Hd).
Defined.

Lemma unforced_run_keeps_cache_files_witness :
  (force_rebuild example_env = false ∧
   cache cached_files !! "2025-12-03"
   = Some (date_entry example_env example_index "2025-12-03")) ∧
  cache (res_files (run sentinel_date_str example_env cached_files))
    !! "2025-12-03"
  = Some (date_entry example_env example_index "2025-12-03") ∧
  Forall (λ e, ¬ reprocesses "2025-12-03" e)
         (res_trace (run sentinel_date_str example_env cached_files)).
Proof.
  assert (force_rebuild example_env = false) as H1 by reflexivity.
  assert (cache cached_files !! "2025-12-03"
          = Some (date_entry example_env example_index "2025-12-03"))
    as H2 by (vm_compute; reflexivity).
  split; [by split|].
  exact (unforced_run_keeps_cache_files sentinel_date_str example_env
           cached_files _ _ H1 H2).
Defined.

Lemma early_exit_leaves_files_witness :
  (ee_initialize example_env = true ∧
   force_rebuild example_env = false ∧
   (image_count example_env = 0 ∨
    found_new_dates sentinel_date_str example_env cached_files = Some [])) ∧
  res_outcome (run sentinel_date_str example_env cached_files) = Exited 0 ∧
  res_files (run sentinel_date_str example_env cached_files) = cached_files ∧
  Forall (λ e, ¬ is_write e)
         (res_trace (run sentinel_date_str example_env cached_files)).
Proof.
  assert (ee_initialize example_env = true) as H1 by reflexivity.
  assert (force_rebuild example_env = false) as H2 by reflexivity.
  assert (image_count example_env = 0 ∨
          found_new_dates sentinel_date_str example_env cached_files = Some [])
    as H3 by (right; vm_compute; reflexivity).
  split; [by split_and!|].
  exact (early_exit_leaves_files sentinel_date_str example_env cached_files
           H1 H2 H3).
Defined.

Lemma run_preserves_ledger_consistency_witness :
  files_consistent cached_files ∧
  files_consistent (res_files (run sentinel_date_str forced_env
                                   cached_files)) ∧
  dom (cache cached_files)
    ⊆ dom (cache (res_files (run sentinel_date_str forced_env
                                 cached_files))) ∧
  dates (load_history cached_files)
    `prefix_of` dates (load_history
                         (res_files (run sentinel_date_str forced_env
                                         cached_files))).
Proof.
  assert (files_consistent cached_files) as H
    by (apply (bool_decide_unpack _); vm_compute; exact I).
  split; [exact H|].
  exact (run_preserves_ledger_consistency sentinel_date_str forced_env
           cached_files H).
Defined.


Lemma forced_run_without_dates_raises_witness :
  (ee_initialize forced_empty_env = true ∧
   force_rebuild forced_empty_env = true ∧
   gee_dates sentinel_date_str forced_empty_env = Some ∅ ∧
   (classify true (cache cached_files) (load_history cached_files) ∅).1.1
   = []) ∧
  res_outcome (run sentinel_date_str forced_empty_env cached_files)
  = Raised IndexError ∧
  build_title (classify true (cache cached_files)
                        (load_history cached_files) ∅).2
              (length (fields_info forced_empty_env)) []
  = inl match dates (load_history cached_files) with
        | [] => AllDatesFirst
        | _ => NewDatesLast
        end ∧
  res_files (run sentinel_date_str forced_empty_env cached_files)
  = cached_files ∧
  Forall (λ e, ¬ is_write e)
         (res_trace (run sentinel_date_str forced_empty_env cached_files)).
Proof.
  assert (ee_initialize forced_empty_env = true) as H1 by reflexivity.
  assert (force_rebuild forced_empty_env = true) as H2 by reflexivity.
  assert (gee_dates sentinel_date_str forced_empty_env = Some ∅) as H3
    by reflexivity.
  assert ((classify true (cache cached_files) (load_history cached_files)
                    ∅).1.1 = []) as H4 by (vm_compute; reflexivity).
  split; [by split_and!|].
  exact (forced_run_without_dates_raises sentinel_date_str forced_empty_env
           cached_files ∅ H1 H2 H3 H4).
Defined.


(** ** Scenarios *)

(** An empty ledger and two new dates: both dates get a cache file and a
    ledger entry, and of the two layers of a map only the later one is
    visible. *)
Example two_new_dates :
  let r := run sentinel_date_str two_dates_env no_files in
  res_outcome r = Finished ∧
  dom (cache (res_files r)) = {[ "2025-12-03"; "2025-12-08" ]} ∧
  dates <$> history_file (res_files r) = Some ["2025-12-03"; "2025-12-08"] ∧
  (λ mp, (λ l, (name l, show l)) <$> layers mp) <$> index_html (res_files r)
  = Some [("NDVI_2025-12-03", false); ("NDVI_2025-12-08", true)] ∧
  state_file (res_files r) = Some "2025-12-08".
Proof. cbv zeta. repeat split; vm_compute; reflexivity. Qed.

(** A forced rebuild over an existing cache file writes the file again and
    sets the pixel count of the date. *)
Example forced_rebuild_rewrites :
  let r := run sentinel_date_str forced_env cached_files in
  res_outcome r = Finished ∧
  EvWrite (CacheFile "2025-12-03") ∈ res_trace r ∧
  (λ h, pixel_counts h !! "2025-12-03") <$> history_file (res_files r)
  = Some (Some 2).
Proof.
  split_and!; [vm_compute; reflexivity| |vm_compute; reflexivity].
  apply (bool_decide_unpack _). vm_compute. exact I.
Qed.

(** A forced rebuild without images on an empty ledger fails at the first
    subscript of the title. *)
Example forced_run_on_empty_ledger :
  res_outcome (run sentinel_date_str forced_empty_env no_files)
  = Raised IndexError ∧
  build_title empty_history 2 [] = inl AllDatesFirst.
Proof. split; vm_compute; reflexivity. Qed.

(** * Further properties of the script *)

(** ** Observation dates *)

Lemma last_index_for_cons_Some dsi d idx feats :
  last_index_for dsi d (Some idx :: feats)
  = match last_index_for dsi d feats with
    | Some i => Some i
    | None => if decide (dsi idx = Some d) then Some idx else None
    end.
Proof.
  unfold last_index_for. simpl. rewrite filter_cons.
  destruct (decide (dsi idx = Some d)).
  - rewrite last_cons. by destruct (last _).
  - by destruct (last _).
Qed.

Lemma observation_dates_lookup dsi feats : ∀ acc m,
  observation_dates dsi feats acc = Some m →
  ∀ d, m !! d = match last_index_for dsi d feats with
                | Some idx => Some idx
                | None => acc !! d
                end.
Proof.
  induction feats as [|[idx|] feats IH]; intros acc m; simpl.
  - by intros [= <-].
  - destruct (dsi idx) as [d0|] eqn:E; [|done].
    intros H d. rewrite (IH _ _ H d), last_index_for_cons_Some.
    destruct (last_index_for dsi d feats); [done|].
    rewrite E. destruct (decide (Some d0 = Some d)) as [[= ->]|Hne].
    + by rewrite lookup_insert_eq.
    + rewrite lookup_insert_ne; [done|]. congruence.
  - apply IH.
Qed.

Lemma observation_dates_None dsi feats : ∀ acc,
  observation_dates dsi feats acc = None ↔
  ∃ idx, idx ∈ omap id feats ∧ dsi idx = None.
Proof.
  induction feats as [|[idx|] feats IH]; intros acc; simpl.
  - split; [done|]. by intros (? & ?%elem_of_nil & _).
  - destruct (dsi idx) as [d0|] eqn:E.
    + rewrite IH. split.
      * intros (i & ? & ?). exists i. split; [by right|done].
      * intros (i & [->|?]%elem_of_cons & ?); [congruence|eauto].
    + split; [|done]. intros _. exists idx. split; [left|done].
  - apply IH.
Qed.

(** ** Order of the partition *)

#[global] Instance tuple_le_total : Total tuple_le.
Proof.
  intros a b. unfold tuple_le.
  destruct (decide (a.1 = b.1)) as [E|E].
  - rewrite decide_True by done. apply total, _.
  - rewrite decide_False by congruence. apply total, _.
Qed.

#[global] Instance tuple_le_trans : Transitive tuple_le.
Proof.
  intros a b c. unfold tuple_le.
  destruct (decide (a.1 = b.1)) as [E1|E1], (decide (b.1 = c.1)) as [E2|E2].
  - rewrite decide_True by congruence. by etrans.
  - rewrite decide_False by congruence. by rewrite E1.
  - rewrite decide_False by congruence. by rewrite <-E2.
  - intros H1 H2. destruct (decide (a.1 = c.1)) as [E3|E3].
    + exfalso. apply E1. apply (anti_symm String.le); [done|]. by rewrite E3.
    + by etrans.
Qed.

Lemma tuple_le_fst a b : tuple_le a b → String.le a.1 b.1.
Proof.
  unfold tuple_le. destruct (decide (a.1 = b.1)) as [->|]; [|done].
  by intros _.
Qed.

Lemma StronglySorted_filter {A} (R : relation A) (P : A → Prop)
    `{!∀ x, Decision (P x)} l :
  StronglySorted R l → StronglySorted R (filter P l).
Proof.
  induction 1 as [|x l Hl IH Hx]; [constructor|].
  rewrite filter_cons. destruct (decide (P x)); [|done].
  constructor; [done|].
  apply Forall_forall. intros y [_ Hy]%list_elem_of_filter.
  rewrite Forall_forall in Hx. by apply Hx.
Qed.

Lemma gee_keys_sorted m : StronglySorted String.le (gee_keys m).
Proof.
  unfold gee_keys, sorted_items.
  apply (StronglySorted_fmap fst tuple_le String.le).
  - intros a b. apply tuple_le_fst.
  - apply StronglySorted_merge_sort; apply _.
Qed.

(** X3: the partition loop visits the dates in ascending order, so
    [new_dates] and [existing_dates] are ascending and list no date twice. *)
Theorem partition_lists_ascending force c h m :
  let '(new_dates, existing_dates, _) := classify force c h m in
  StronglySorted String.le new_dates ∧ NoDup new_dates ∧
  StronglySorted String.le existing_dates ∧ NoDup existing_dates.
Proof.
  destruct (classify_lists force c h m) as [Hn He].
  destruct (classify force c h m) as [[new ex] h']. simpl in *. subst.
  split_and!.
  - apply StronglySorted_filter, gee_keys_sorted.
  - apply NoDup_filter, gee_keys_NoDup.
  - apply StronglySorted_filter, gee_keys_sorted.
  - apply NoDup_filter, gee_keys_NoDup.
Qed.

(** X1: [all_dates_from_gee] binds a date to the identifier of the last image
    of the query whose identifier gives that date, and binds no other date;
    images without ['system:index'] are passed over. *)
Theorem gee_dates_last_image date_str_of_index env m d :
  gee_dates date_str_of_index env = Some m →
  m !! d = last_index_for date_str_of_index d (collection_info env).
Proof.
  intros H. unfold gee_dates in H.
  rewrite (observation_dates_lookup _ _ _ _ H d).
  by destruct (last_index_for _ _ _).
Qed.

Lemma gee_dates_last_image_witness :
  gee_dates sentinel_date_str same_date_env
  = Some {[ "2025-12-03" := "20251203T012345_20251203T012900_T54SVK" ]} ∧
  ({[ "2025-12-03" := "20251203T012345_20251203T012900_T54SVK" ]}
     : gmap string string) !! "2025-12-03"
  = last_index_for sentinel_date_str "2025-12-03"
      (collection_info same_date_env).
Proof.
  assert (gee_dates sentinel_date_str same_date_env
          = Some {[ "2025-12-03" := "20251203T012345_20251203T012900_T54SVK" ]})
    as H by (vm_compute; reflexivity).
  split; [exact H|].
  exact (gee_dates_last_image sentinel_date_str same_date_env _ "2025-12-03" H).
Defined.

(** X2: when the run gets to the observation dates and the identifier of some
    image names no date, the run raises [ValueError]; no file is changed and
    nothing is written. *)
Theorem unparsable_identifier_raises date_str_of_index env fs idx :
  ee_initialize env = true →
  image_count env ≠ 0 ∨ force_rebuild env = true →
  idx ∈ omap id (collection_info env) →
  date_str_of_index idx = None →
  run date_str_of_index env fs
  = {| res_outcome := Raised ValueError; res_files := fs; res_trace := [] |}.
Proof.
  intros Hinit Hcount Hidx Hnone. unfold run. rewrite Hinit. simpl.
  assert (bool_decide (image_count env = 0) && negb (force_rebuild env)
          = false) as ->.
  { destruct Hcount as [?| ->]; [|by rewrite andb_false_r].
    by rewrite bool_decide_eq_false_2. }
  unfold gee_dates.
  assert (observation_dates date_str_of_index (collection_info env) ∅ = None)
    as -> by (apply observation_dates_None; eauto).
  done.
Qed.

Lemma unparsable_identifier_raises_witness :
  (ee_initialize bad_index_env = true ∧
   (image_count bad_index_env ≠ 0 ∨ force_rebuild bad_index_env = true) ∧
   "2025130XT012345" ∈ omap id (collection_info bad_index_env) ∧
   sentinel_date_str "2025130XT012345" = None) ∧
  run sentinel_date_str bad_index_env cached_files
  = {| res_outcome := Raised ValueError; res_files := cached_files;
       res_trace := [] |}.
Proof.
  assert (ee_initialize bad_index_env = true) as H1 by reflexivity.
  assert (image_count bad_index_env ≠ 0 ∨ force_rebuild bad_index_env = true)
    as H2 by (left; discriminate).
  assert ("2025130XT012345" ∈ omap id (collection_info bad_index_env)) as H3
    by (right; left).
  assert (sentinel_date_str "2025130XT012345" = None) as H4
    by (vm_compute; reflexivity).
  split; [by split_and!|].
  exact (unparsable_identifier_raises sentinel_date_str bad_index_env
           cached_files _ H1 H2 H3 H4).
Defined.

Lemma classify_step_existing force c st item :
  ¬ is_new_date force c item.1 →
  date_to_index (classify_step force c st item).2 !! item.1
  = Some (default item.2 (date_to_index st.2 !! item.1)).
Proof.
  destruct st as [[new ex] h], item as [d0 idx]. unfold classify_step.
  rewrite is_new_date_bool. intros Hn. rewrite bool_decide_eq_false_2 by done.
  simpl. destruct (date_to_index h !! d0) eqn:E; simpl.
  - done.
  - by rewrite lookup_insert_eq.
Qed.

Lemma classify_fold_existing force c items : ∀ st,
  NoDup items.*1 → ∀ d idx, (d, idx) ∈ items → ¬ is_new_date force c d →
  date_to_index (foldl (classify_step force c) st items).2 !! d
  = Some (default idx (date_to_index st.2 !! d)).
Proof.
  induction items as [|item items IH]; intros st Hnd d idx Hin Hnew.
  { by apply elem_of_nil in Hin. }
  apply NoDup_cons in Hnd as [Hnin Hnd]. simpl.
  apply elem_of_cons in Hin as [<-|Hin].
  - destruct (classify_fold_history force c items
                (classify_step force c st (d, idx))) as (_ & _ & Hf & _).
    rewrite Hf by done. by apply (classify_step_existing force c st (d, idx)).
  - rewrite (IH _ Hnd d idx Hin Hnew).
    destruct (classify_step_history force c st item) as (_ & _ & Hf & _).
    rewrite Hf; [done|]. intros ->. apply Hnin.
    by apply (list_elem_of_fmap_2 fst _ (item.1, idx)).
Qed.

(** X4: the partition loop leaves the ledger's date list and pixel counts as
    they are; in [date_to_index] a new date gets the identifier of the query,
    a cached date keeps the identifier the ledger has for it and gets the
    query's one when the ledger has none, and a date the query does not
    return is not touched. *)
Theorem partition_date_to_index force c h m :
  let h' := (classify force c h m).2 in
  dates h' = dates h ∧
  pixel_counts h' = pixel_counts h ∧
  (∀ d idx, m !! d = Some idx → is_new_date force c d →
     date_to_index h' !! d = Some idx) ∧
  (∀ d idx, m !! d = Some idx → ¬ is_new_date force c d →
     date_to_index h' !! d = Some (default idx (date_to_index h !! d))) ∧
  (∀ d, m !! d = None → date_to_index h' !! d = date_to_index h !! d).
Proof.
  destruct (classify_history force c h m) as (Hd & Hp & Hn).
  split_and!; [done..| |].
  - intros d idx Hm Hnew. unfold classify.
    apply (classify_fold_existing force c (sorted_items m) ([], [], h));
      [apply gee_keys_NoDup| |done].
    by apply elem_of_sorted_items.
  - intros d Hm. unfold classify.
    destruct (classify_fold_history force c (sorted_items m) ([], [], h))
      as (_ & _ & Hf & _).
    apply Hf. fold (gee_keys m). rewrite elem_of_gee_keys, elem_of_dom, Hm.
    by intros [].
Qed.

(** ** Sampling the fields of a date *)







Lemma pixel_of_feature_raises pf geom :
  geometry pf = Some geom → properties pf ≠ ∅ →
  (∀ x y, coordinates geom ≠ Some [x; y]) →
  pixel_of_feature pf = PixelRaises.
Proof.
  intros Hg Hp Hc. unfold pixel_of_feature. rewrite Hg.
  rewrite bool_decide_eq_false_2 by done.
  destruct (coordinates geom) as [[|x [|y [|z l]]]|] eqn:E; try done.
  by destruct (Hc x y).
Qed.

Lemma collect_pixels_raises feats pf :
  pf ∈ feats → pixel_of_feature pf = PixelRaises →
  ∀ acc, collect_pixels feats acc = None.
Proof.
  induction feats as [|pf' feats IH]; [by intros ?%elem_of_nil|].
  intros [->|Hin]%elem_of_cons Hr acc; simpl.
  - by rewrite Hr.
  - destruct (pixel_of_feature pf'); auto.
Qed.

(** X6: when one sampled feature of a field has geometry and properties but
    its coordinates are missing or are not a pair, the [try] block fails and
    the whole field is dropped, whatever the other features are. *)
Theorem malformed_feature_discards_field feats pf geom f uu a :
  pf ∈ feats →
  geometry pf = Some geom →
  properties pf ≠ ∅ →
  (∀ x y, coordinates geom ≠ Some [x; y]) →
  try_field (SampleInfo (Some feats)) f uu a = FieldError.
Proof.
  intros Hin Hg Hp Hc. unfold try_field.
  destruct (head _); [|done].
  rewrite (collect_pixels_raises feats pf Hin); [done|].
  by eapply pixel_of_feature_raises.
Qed.

Lemma malformed_feature_discards_field_witness :
  (broken_pixel ∈ [example_pixel; broken_pixel] ∧
   geometry broken_pixel = Some {| coordinates := None |} ∧
   properties broken_pixel ≠ ∅ ∧
   (∀ x y, coordinates {| coordinates := None |} ≠ Some [x; y])) ∧
  try_field (SampleInfo (Some [example_pixel; broken_pixel]))
            (example_field "f-1") (Some "f-1") "field one"
  = FieldError.
Proof.
  assert (broken_pixel ∈ [example_pixel; broken_pixel]) as H1
    by (right; left).
  assert (geometry broken_pixel = Some {| coordinates := None |}) as H2
    by reflexivity.
  assert (properties broken_pixel ≠ ∅) as H3
    by (intros H; apply (f_equal (lookup "NDVI")) in H; vm_compute in H;
        discriminate H).
  assert (∀ x y, coordinates {| coordinates := None |} ≠ Some [x; y]) as H4
    by (intros x y; discriminate).
  split; [by split_and!|].
  exact (malformed_feature_discards_field _ _ _ (example_field "f-1")
           (Some "f-1") "field one" H1 H2 H3 H4).
Defined.

Lemma pixel_of_feature_skipped pf :
  pixel_of_feature pf = PixelSkipped → lacks_geometry_or_properties pf.
Proof.
  unfold pixel_of_feature, lacks_geometry_or_properties.
  destruct (geometry pf) as [geom|]; [|by left].
  case_bool_decide; [by right|].
  by destruct (coordinates geom) as [[|x [|y [|z l]]]|].
Qed.

Lemma pixel_of_feature_stored pf p :
  pixel_of_feature pf = PixelStored p →
  ¬ lacks_geometry_or_properties pf ∧ pixel_stored_for pf p.
Proof.
  unfold pixel_of_feature, lacks_geometry_or_properties, pixel_stored_for.
  destruct (geometry pf) as [geom|]; [|done].
  case_bool_decide as Hp; [done|].
  destruct (coordinates geom) as [[|x [|y [|z l]]]|] eqn:E; try done.
  intros [= <-]. simpl. split; [by intros [|]|]. by exists geom.
Qed.

Lemma collect_pixels_spec feats : ∀ acc px,
  collect_pixels feats acc = Some px →
  ∃ new, px = acc ++ new ∧
    Forall2 pixel_stored_for
      (filter (λ pf, ¬ lacks_geometry_or_properties pf) feats) new.
Proof.
  induction feats as [|pf feats IH]; intros acc px; simpl.
  - intros [= <-]. exists []. by rewrite app_nil_r.
  - rewrite filter_cons.
    destruct (pixel_of_feature pf) as [| |p] eqn:E; [done|..].
    + apply pixel_of_feature_skipped in E.
      rewrite decide_False by tauto. apply IH.
    + apply pixel_of_feature_stored in E as [Hl Hs].
      rewrite decide_True by done.
      intros (new & -> & Hnew)%IH. exists (p :: new).
      split; [by rewrite <-app_assoc|]. by constructor.
Qed.

(** X7: the record of a successfully sampled field carries the field's
    identifier and address, its first ring as boundary, and one pixel record,
    in order, for each sampled feature that has geometry and properties, with
    longitude and latitude taken from the coordinate pair; the pixel count of
    the field exceeds the stored pixels by the number of features without
    geometry or properties. *)
Theorem stored_pixels_of_field feats f uu a fd n :
  try_field (SampleInfo (Some feats)) f uu a = FieldOk fd n →
  polygon_uu fd = uu ∧ address fd = a ∧
  head (geometry_coordinates f) = Some (boundary fd) ∧
  Forall2 pixel_stored_for
    (filter (λ pf, ¬ lacks_geometry_or_properties pf) feats) (pixels fd) ∧
  n = Z.of_nat (length feats) ∧
  n - Z.of_nat (length (pixels fd))
  = Z.of_nat (length (filter lacks_geometry_or_properties feats)).
Proof.
  unfold try_field.
  destruct (head (geometry_coordinates f)) as [ring|]; [|done].
  destruct (collect_pixels feats []) as [px|] eqn:E; [|done].
  intros [= <- <-]. simpl.
  apply collect_pixels_spec in E as (new & -> & Hnew). simpl.
  split_and!; [done..|].
  apply Forall2_length in Hnew.
  pose proof (filter_app_complement lacks_geometry_or_properties feats) as Hp.
  apply Permutation_length in Hp. rewrite length_app in Hp. lia.
Qed.

Lemma stored_pixels_of_field_witness :
  let feats := [example_pixel; {| geometry := None; properties := ∅ |}] in
  let fd := {| polygon_uu := Some "f-1"; address := "field one";
               boundary := [(f0_1, f0_2); (f0_3, f0_4)];
               pixels := [{| lat := f0_4; lon := f0_2; ndvi := Some f0_6;
                             ndwi := None; gndvi := None |}] |} in
  try_field (SampleInfo (Some feats)) (example_field "f-1") (Some "f-1")
            "field one" = FieldOk fd 2 ∧
  polygon_uu fd = Some "f-1" ∧ address fd = "field one" ∧
  head (geometry_coordinates (example_field "f-1")) = Some (boundary fd) ∧
  Forall2 pixel_stored_for
    (filter (λ pf, ¬ lacks_geometry_or_properties pf) feats) (pixels fd) ∧
  2 = Z.of_nat (length feats) ∧
  2 - Z.of_nat (length (pixels fd))
  = Z.of_nat (length (filter lacks_geometry_or_properties feats)).
Proof.
  intros feats fd.
  assert (try_field (SampleInfo (Some feats)) (example_field "f-1")
            (Some "f-1") "field one" = FieldOk fd 2) as H
    by (vm_compute; reflexivity).
  split; [exact H|].
  exact (stored_pixels_of_field feats (example_field "f-1") (Some "f-1")
           "field one" fd 2 H).
Defined.

(** ** What the layers draw *)





Lemma concat_pixels_total dc :
  Z.of_nat (length (concat (map pixels (fields dc)))) = stored_pixel_total dc.
Proof.
  unfold stored_pixel_total. induction (fields dc) as [|fd fds IH]; [done|].
  cbn [map concat fmap list_fmap foldr]. rewrite length_app. lia.
Qed.

(** X9: rendering prints one line per ledger date after the lines printed
    before it and writes no file; the line is the missing-cache warning
    exactly for the ledger dates without cache file, and for a cached date it
    reports the number of pixel records of the cache file. *)
Theorem render_reports_every_date c h tr :
  ∃ evs, (render c h tr).2 = tr ++ evs ∧
    length evs = length (dates h) ∧
    Forall (λ e, ¬ is_write e) evs ∧
    ∀ d, (EvPrint (MsgCacheMissing d) ∈ evs ↔ d ∈ dates h ∧ c !! d = None) ∧
         (∀ n, EvPrint (MsgLoaded d n) ∈ evs ↔
               d ∈ dates h ∧ ∃ dc, c !! d = Some dc ∧ n = stored_pixel_total dc).
Proof.
  rewrite render_spec. simpl. eexists. split; [done|].
  assert (∀ d, d ∈ sorted (dates h) ↔ d ∈ dates h) as Hsorted.
  { intros d. unfold sorted. by rewrite merge_sort_Permutation. }
  split_and!.
  - rewrite length_fmap. unfold sorted. by rewrite merge_sort_Permutation.
  - apply render_events_no_write.
  - intros d. split.
    + rewrite list_elem_of_fmap. setoid_rewrite Hsorted. split.
      * intros (d' & He & Hd'). unfold render_event in He.
        destruct (c !! d') eqn:E; [done|]. by injection He as ->.
      * intros [Hd Hc]. exists d. split; [|done].
        unfold render_event. by rewrite Hc.
    + intros n. rewrite list_elem_of_fmap. setoid_rewrite Hsorted. split.
      * intros (d' & He & Hd'). unfold render_event in He.
        destruct (c !! d') as [dc|] eqn:E; [|done]. injection He as -> ->.
        split; [done|]. exists dc. by rewrite concat_pixels_total.
      * intros [Hd (dc & Hc & ->)]. exists d. split; [|done].
        unfold render_event. by rewrite Hc, concat_pixels_total.
Qed.

(** ** How a run ends *)

Lemma build_title_no_new_dates h n : ∃ s, build_title h n [] = inl s.
Proof.
  unfold build_title. destruct (head _); [|by eexists].
  destruct (last _); by eexists.
Qed.

Lemma build_title_nonempty h n new :
  dates h ≠ [] → new ≠ [] → ∃ t, build_title h n new = inr t.
Proof.
  intros Hd Hn. unfold build_title.
  destruct (sorted (dates h)) as [|d1 ds] eqn:E.
  { by apply (proj1 (sorted_nil_iff _)) in E. }
  simpl. destruct (last (d1 :: ds)) eqn:El; [|by apply last_None in El].
  destruct (last new) eqn:En; [by eexists|]. by apply last_None in En.
Qed.

Lemma classify_new_dates_indexed force c h m :
  ∀ d, d ∈ (classify force c h m).1.1 →
    ∃ idx, m !! d = Some idx ∧
           date_to_index (classify force c h m).2 !! d = Some idx.
Proof.
  intros d. destruct (classify_lists force c h m) as [-> _].
  destruct (classify_history force c h m) as (_ & _ & Hdti).
  rewrite list_elem_of_filter, elem_of_gee_keys, elem_of_dom.
  intros [Hn [idx Hm]]. eauto.
Qed.

Section run_structure.
Variable date_str_of_index : string → option string.

(** The six ways in which a run ends. *)
Lemma run_cases env fs :
  let r := run date_str_of_index env fs in
  (ee_initialize env = false ∧
   r = {| res_outcome := Exited 1; res_files := fs;
          res_trace := [EvPrint MsgInitError] |}) ∨
  (ee_initialize env = true ∧ image_count env = 0 ∧
   force_rebuild env = false ∧
   r = {| res_outcome := Exited 0; res_files := fs;
          res_trace := [EvPrint MsgNoNewImages] |}) ∨
  (ee_initialize env = true ∧ gee_dates date_str_of_index env = None ∧
   r = {| res_outcome := Raised ValueError; res_files := fs;
          res_trace := [] |}) ∨
  (ee_initialize env = true ∧ force_rebuild env = false ∧
   found_new_dates date_str_of_index env fs = Some [] ∧
   r = {| res_outcome := Exited 0; res_files := fs;
          res_trace := [EvPrint MsgNoNewDates] |}) ∨
  (ee_initialize env = true ∧ force_rebuild env = true ∧
   found_new_dates date_str_of_index env fs = Some [] ∧
   res_outcome r = Raised IndexError ∧ res_files r = fs ∧
   Forall (λ e, ¬ is_write e) (res_trace r)) ∨
  (ee_initialize env = true ∧
   (image_count env ≠ 0 ∨ force_rebuild env = true) ∧
   (∃ new, found_new_dates date_str_of_index env fs = Some new ∧ new ≠ []) ∧
   res_outcome r = Finished).
Proof.
  unfold run, found_new_dates.
  destruct (ee_initialize env) eqn:Hinit; simpl; [|by left].
  right.
  destruct (bool_decide (image_count env = 0)) eqn:Hcount;
    [apply bool_decide_eq_true in Hcount|apply bool_decide_eq_false in Hcount];
    simpl.
  - destruct (force_rebuild env) eqn:Hforce; simpl; [|by left].
    right.
    destruct (gee_dates date_str_of_index env) as [m|]; [|by left].
    right. right. simpl.
    pose proof (classify_new_dates_indexed true (cache fs) (load_history fs) m)
      as Hidx.
    destruct (classify true (cache fs) (load_history fs) m) as [[new ex] h0].
    simpl in Hidx. destruct new as [|d0 new].
    + left. simpl. destruct (build_title_no_new_dates h0
                               (length (fields_info env))) as [s ->].
      rewrite render_spec. simpl. rewrite with_cache_same.
      split_and!; [done..|]. apply render_events_no_write.
    + right. simpl.
      destruct (process_dates_ok env (d0 :: new)
                  {| st_history := h0; st_cache := cache fs; st_trace := [] |})
        as (st & Hrun & Hres).
      { intros d (idx & _ & ?)%Hidx. simpl. eauto. }
      simpl in Hrun. rewrite Hrun. rewrite render_spec.
      destruct (Hidx d0) as (idx0 & _ & Hd0); [left|].
      destruct (Hres d0 idx0) as (_ & _ & Hin); [left|done|].
      destruct (build_title_nonempty (st_history st) (length (fields_info env))
                  (d0 :: new)) as [t ->]; [|done|].
      { intros E. rewrite E in Hin. by apply elem_of_nil in Hin. }
      split_and!; [done|by right|by eexists|done].
  - destruct (gee_dates date_str_of_index env) as [m|]; [|by right; left].
    simpl.
    pose proof (classify_new_dates_indexed (force_rebuild env) (cache fs)
                  (load_history fs) m) as Hidx.
    destruct (classify (force_rebuild env) (cache fs) (load_history fs) m)
      as [[new ex] h0].
    simpl in Hidx. destruct new as [|d0 new]; simpl.
    + destruct (force_rebuild env) eqn:Hforce; simpl.
      * right. right. right. left.
        destruct (build_title_no_new_dates h0
                    (length (fields_info env))) as [s ->].
        rewrite render_spec. simpl. rewrite with_cache_same.
        split_and!; [done..|]. apply render_events_no_write.
      * right. right. by left.
    + right. right. right. right.
      destruct (process_dates_ok env (d0 :: new)
                  {| st_history := h0; st_cache := cache fs; st_trace := [] |})
        as (st & Hrun & Hres).
      { intros d (idx & _ & ?)%Hidx. simpl. eauto. }
      simpl in Hrun. rewrite Hrun. rewrite render_spec.
      destruct (Hidx d0) as (idx0 & _ & Hd0); [left|].
      destruct (Hres d0 idx0) as (_ & _ & Hin); [left|done|].
      destruct (build_title_nonempty (st_history st) (length (fields_info env))
                  (d0 :: new)) as [t ->]; [|done|].
      { intros E. rewrite E in Hin. by apply elem_of_nil in Hin. }
      split_and!; [done|by left|by eexists|done].
Qed.


(** X11: a run that does not finish, whether it exits early or raises, leaves
    every file as it was and writes nothing. *)
Theorem unfinished_run_changes_nothing env fs :
  res_outcome (run date_str_of_index env fs) ≠ Finished →
  res_files (run date_str_of_index env fs) = fs ∧
  Forall (λ e, ¬ is_write e) (res_trace (run date_str_of_index env fs)).
Proof.
  destruct (run_cases env fs)
    as [[_ ->]|[(_ & _ & _ & ->)|[(_ & Hg & ->)|[(_ & _ & _ & ->)|
        [(_ & Hf & Hn & _ & -> & ?)|(_ & _ & _ & ->)]]]]]; simpl; try done.
  all: intros _; split; [done|]; repeat constructor; by intros [].
Qed.
End run_structure.


Lemma unfinished_run_changes_nothing_witness :
  res_outcome (run sentinel_date_str example_env cached_files) ≠ Finished ∧
  res_files (run sentinel_date_str example_env cached_files) = cached_files ∧
  Forall (λ e, ¬ is_write e)
         (res_trace (run sentinel_date_str example_env cached_files)).
Proof.
  assert (res_outcome (run sentinel_date_str example_env cached_files)
          ≠ Finished) as H by (vm_compute; discriminate).
  split; [exact H|].
  exact (unfinished_run_changes_nothing sentinel_date_str example_env
           cached_files H).
Defined.

(** ** What a finished run leaves *)

Lemma filter_ext_in {A} (P1 P2 : A → Prop)
    `{!∀ x, Decision (P1 x), !∀ x, Decision (P2 x)} (l : list A) :
  (∀ x, x ∈ l → P1 x ↔ P2 x) → filter P1 l = filter P2 l.
Proof.
  induction l as [|x l IH]; intros Hext; [done|].
  rewrite !filter_cons, IH by (intros y Hy; apply Hext; by right).
  assert (P1 x ↔ P2 x) as Hx by (apply Hext; left).
  destruct (decide (P1 x)), (decide (P2 x)); tauto || done.
Qed.

Lemma filter_none {A} (P : A → Prop) `{!∀ x, Decision (P x)} (l : list A) :
  (∀ x, x ∈ l → ¬ P x) → filter P l = [].
Proof.
  induction l as [|x l IH]; intros Hl; [done|].
  rewrite filter_cons, decide_False by (apply Hl; left).
  apply IH. intros y Hy. apply Hl. by right.
Qed.

Lemma process_dates_dates env ds : ∀ st st',
  NoDup ds →
  process_dates env ds st = (None, st') →
  dates (st_history st')
  = dates (st_history st) ++ filter (λ d, d ∉ dates (st_history st)) ds.
Proof.
  induction ds as [|d0 ds IH]; intros st st' Hnd; simpl.
  - intros [= <-]. by rewrite app_nil_r.
  - apply NoDup_cons in Hnd as [Hd0 Hnd].
    destruct (date_to_index (st_history st) !! d0) as [idx|] eqn:E.
    2: { by rewrite (process_date_raises _ _ _ E). }
    rewrite (process_date_ok _ _ _ _ E). intros Hrun.
    rewrite (IH _ _ Hnd Hrun). simpl. rewrite filter_cons.
    case_bool_decide as Hin.
    + by rewrite decide_False by tauto.
    + rewrite decide_True by done. rewrite <-app_assoc. simpl. do 2 f_equal.
      apply filter_ext_in. intros d Hd.
      rewrite elem_of_app, list_elem_of_singleton.
      split; [tauto|]. intros Hn [?| ->]; done.
Qed.

Lemma process_dates_trace_ok env ds : ∀ st st',
  process_dates env ds st = (None, st') →
  st_trace st'
  = st_trace st
    ++ concat ((λ d, match date_to_index (st_history st) !! d with
                     | Some idx => date_events env idx d
                     | None => []
                     end) <$> ds).
Proof.
  induction ds as [|d0 ds IH]; intros st st'; simpl.
  - intros [= <-]. by rewrite app_nil_r.
  - destruct (date_to_index (st_history st) !! d0) as [idx|] eqn:E.
    2: { by rewrite (process_date_raises _ _ _ E). }
    rewrite (process_date_ok _ _ _ _ E). intros Hrun.
    rewrite (IH _ _ Hrun). simpl. by rewrite <-app_assoc.
Qed.

Lemma date_events_writes env idx d p :
  EvWrite p ∈ date_events env idx d ↔ p = CacheFile d.
Proof.
  unfold date_events. rewrite !elem_of_app, !elem_of_cons, !elem_of_nil.
  split.
  - intros [[?|[]]|[H|[[= ->]|[?|[]]]]]; try done.
    apply elem_of_concat in H as (evs & Hev & (item & -> & _)%list_elem_of_fmap).
    apply field_events_shape in Hev.
    destruct Hev as [[? ?]|[?|[?|[?|[? ?]]]]]; done.
  - intros ->. right. right. by left.
Qed.

Lemma process_dates_writes env ds st st' :
  (∀ d, d ∈ ds → is_Some (date_to_index (st_history st) !! d)) →
  process_dates env ds st = (None, st') →
  ∃ delta, st_trace st' = st_trace st ++ delta ∧
    ∀ p, EvWrite p ∈ delta ↔ ∃ d, p = CacheFile d ∧ d ∈ ds.
Proof.
  intros Hall Hrun. eexists. split; [by apply process_dates_trace_ok|].
  intros p. rewrite elem_of_concat. split.
  - intros (evs & Hev & (d & -> & Hd)%list_elem_of_fmap).
    destruct (date_to_index (st_history st) !! d); [|by apply elem_of_nil in Hev].
    apply date_events_writes in Hev. eauto.
  - intros (d & -> & Hd). destruct (Hall d Hd) as [idx E].
    exists (date_events env idx d). split; [by apply date_events_writes|].
    apply list_elem_of_fmap. exists d. by rewrite E.
Qed.

Lemma StronglySorted_head_min (l : list string) x :
  StronglySorted String.le l → head l = Some x → ∀ y, y ∈ l → String.le x y.
Proof.
  destruct 1 as [|z l Hl Hz]; [done|]. simpl. intros [= <-] y.
  intros [->|Hy]%elem_of_cons; [done|].
  rewrite Forall_forall in Hz. by apply Hz.
Qed.

Lemma sorted_head_min l x :
  head (sorted l) = Some x → x ∈ l ∧ ∀ y, y ∈ l → String.le x y.
Proof.
  intros Hhead. split.
  - apply head_Some_elem_of in Hhead. unfold sorted in Hhead.
    by rewrite merge_sort_Permutation in Hhead.
  - intros y Hy. eapply StronglySorted_head_min; [|done|].
    + apply StronglySorted_merge_sort; apply _.
    + unfold sorted. by rewrite merge_sort_Permutation.
Qed.

Section finished_run.
Variable date_str_of_index : string → option string.

(** The parts of a finished run. *)
Lemma run_finished_inv env fs :
  res_outcome (run date_str_of_index env fs) = Finished →
  ∃ m st t newest,
    let cl := classify (force_rebuild env) (cache fs) (load_history fs) m in
    ee_initialize env = true ∧
    (image_count env ≠ 0 ∨ force_rebuild env = true) ∧
    gee_dates date_str_of_index env = Some m ∧
    last cl.1.1 = Some newest ∧
    process_dates env cl.1.1
      {| st_history := cl.2; st_cache := cache fs; st_trace := [] |}
    = (None, st) ∧
    build_title (st_history st) (length (fields_info env)) cl.1.1 = inr t ∧
    res_files (run date_str_of_index env fs)
    = {| cache := st_cache st;
         history_file := Some (st_history st);
         index_html :=
           Some {| layers := m_ndvi (render (st_cache st) (st_history st) []).1;
                   title := t |};
         ndwi_html :=
           Some {| layers := m_ndwi (render (st_cache st) (st_history st) []).1;
                   title := t |};
         gndvi_html :=
           Some {| layers := m_gndvi (render (st_cache st) (st_history st) []).1;
                   title := t |};
         state_file := Some newest |} ∧
    res_trace (run date_str_of_index env fs)
    = (render (st_cache st) (st_history st) (st_trace st)).2 ++ final_writes.
Proof.
  unfold run.
  destruct (ee_initialize env); [|done]. simpl.
  destruct (bool_decide (image_count env = 0) && negb (force_rebuild env))
    eqn:Hc; [done|].
  destruct (gee_dates date_str_of_index env) as [m|]; [|done].
  destruct (classify _ _ _ m) as [[new ex] h0] eqn:Hcl.
  destruct (bool_decide (length new = 0%nat) && negb (force_rebuild env));
    [done|].
  destruct (process_dates env new _) as [[e|] st] eqn:Hrun; simpl; [done|].
  rewrite render_spec.
  destruct (build_title _ _ _) as [s|t] eqn:Ht; simpl; [done|]. intros _.
  assert (∃ newest, last new = Some newest) as [newest Hlast].
  { unfold build_title in Ht. destruct (head _); [|done].
    destruct (last (sorted _)); [|done]. destruct (last new); [eauto|done]. }
  exists m, st, t, newest. rewrite Hcl. simpl. rewrite Hlast, !render_spec.
  split_and!; try done.
  apply andb_false_iff in Hc as [Hc|Hc].
  - left. by apply bool_decide_eq_false in Hc.
  - right. by destruct (force_rebuild env).
Qed.

Lemma finished_run_facts env fs :
  res_outcome (run date_str_of_index env fs) = Finished →
  ∃ m new h0 st t newest,
    ee_initialize env = true ∧
    (image_count env ≠ 0 ∨ force_rebuild env = true) ∧
    gee_dates date_str_of_index env = Some m ∧
    found_new_dates date_str_of_index env fs = Some new ∧
    new = filter (is_new_date (force_rebuild env) (cache fs)) (gee_keys m) ∧
    dates h0 = dates (load_history fs) ∧
    pixel_counts h0 = pixel_counts (load_history fs) ∧
    (∀ d, d ∈ new → ∃ idx, m !! d = Some idx ∧
                           date_to_index h0 !! d = Some idx) ∧
    last new = Some newest ∧
    process_dates env new
      {| st_history := h0; st_cache := cache fs; st_trace := [] |}
    = (None, st) ∧
    build_title (st_history st) (length (fields_info env)) new = inr t ∧
    res_files (run date_str_of_index env fs)
    = {| cache := st_cache st;
         history_file := Some (st_history st);
         index_html :=
           Some {| layers := m_ndvi (render (st_cache st) (st_history st) []).1;
                   title := t |};
         ndwi_html :=
           Some {| layers := m_ndwi (render (st_cache st) (st_history st) []).1;
                   title := t |};
         gndvi_html :=
           Some {| layers := m_gndvi (render (st_cache st) (st_history st) []).1;
                   title := t |};
         state_file := Some newest |} ∧
    res_trace (run date_str_of_index env fs)
    = (render (st_cache st) (st_history st) (st_trace st)).2 ++ final_writes.
Proof.
  intros (m & st & t & newest & Hinit & Hcount & Hm & Hlast & Hrun & Ht
          & Hfiles & Htrace)%run_finished_inv.
  destruct (classify_lists (force_rebuild env) (cache fs) (load_history fs) m)
    as [Hnew _].
  destruct (classify_history (force_rebuild env) (cache fs) (load_history fs) m)
    as (Hdates & Hpc & _).
  pose proof (classify_new_dates_indexed (force_rebuild env) (cache fs)
                (load_history fs) m) as Hidx.
  eexists m, _, _, st, t, newest.
  split_and!; try done.
  unfold found_new_dates. by rewrite Hm.
Qed.

(** X12: when a run finishes, the ledger it saves lists the dates of the
    ledger it loaded, in their order, followed by the new dates that were not
    listed yet, in ascending order; every new date is listed, and a ledger
    without repeated dates stays without repeated dates. *)
Theorem ledger_dates_after_run env fs new :
  res_outcome (run date_str_of_index env fs) = Finished →
  found_new_dates date_str_of_index env fs = Some new →
  ∃ h', history_file (res_files (run date_str_of_index env fs)) = Some h' ∧
    dates h'
    = dates (load_history fs)
      ++ filter (λ d, d ∉ dates (load_history fs)) new ∧
    (∀ d, d ∈ new → d ∈ dates h') ∧
    (NoDup (dates (load_history fs)) → NoDup (dates h')).
Proof.
  intros (m & new' & h0 & st & t & newest & _ & _ & _ & Hfound & Hnew & Hdates
          & _ & _ & _ & Hrun & _ & -> & _)%finished_run_facts.
  rewrite Hfound. intros [= <-].
  assert (NoDup new') as Hnd by (rewrite Hnew; apply NoDup_filter, gee_keys_NoDup).
  exists (st_history st). split; [done|].
  rewrite (process_dates_dates _ _ _ _ Hnd Hrun). simpl. rewrite Hdates.
  split_and!; [done| |].
  - intros d Hd. rewrite elem_of_app, list_elem_of_filter.
    destruct (decide (d ∈ dates (load_history fs))); auto.
  - intros Hl. apply NoDup_app. split_and!; [done| |by apply NoDup_filter].
    by intros d Hd [? _]%list_elem_of_filter.
Qed.

(** X13: when a run finishes, the marker file holds the latest of the new
    dates. *)
Theorem marker_is_latest_new_date env fs new :
  res_outcome (run date_str_of_index env fs) = Finished →
  found_new_dates date_str_of_index env fs = Some new →
  ∃ d, state_file (res_files (run date_str_of_index env fs)) = Some d ∧
       d ∈ new ∧ ∀ d', d' ∈ new → String.le d' d.
Proof.
  intros (m & new' & h0 & st & t & newest & _ & _ & _ & Hfound & Hnew & _
          & _ & _ & Hlast & _ & _ & -> & _)%finished_run_facts.
  rewrite Hfound. intros [= <-]. exists newest. simpl.
  split_and!; [done|by apply last_Some_elem_of|].
  apply StronglySorted_last_max; [|done].
  rewrite Hnew. apply StronglySorted_filter, gee_keys_sorted.
Qed.

Lemma processed_cache_files env fs m new h0 st :
  new = filter (is_new_date (force_rebuild env) (cache fs)) (gee_keys m) →
  (∀ d, d ∈ new → ∃ idx, m !! d = Some idx ∧
                         date_to_index h0 !! d = Some idx) →
  process_dates env new
    {| st_history := h0; st_cache := cache fs; st_trace := [] |}
  = (None, st) →
  (∀ d idx, d ∈ new → m !! d = Some idx →
     st_cache st !! d = Some (date_entry env idx d) ∧
     pixel_counts (st_history st) !! d = Some (date_pixel_count env idx) ∧
     date_to_index (st_history st) !! d = Some idx ∧
     d ∈ dates (st_history st)) ∧
  (∀ d, d ∉ new →
     st_cache st !! d = cache fs !! d ∧
     pixel_counts (st_history st) !! d = pixel_counts h0 !! d).
Proof.
  intros Hnew Hidx Hrun.
  destruct (process_dates_ok env new
              {| st_history := h0; st_cache := cache fs; st_trace := [] |})
    as (st' & Hrun' & Hres).
  { intros d (idx & _ & ?)%Hidx. simpl. eauto. }
  rewrite Hrun in Hrun'. injection Hrun' as <-.
  pose proof (process_dates_frame _ _ _ _ _ Hrun) as (Hdti & Hframe & _).
  simpl in *. split; [|done].
  intros d idx Hd Hm. destruct (Hidx d Hd) as (idx' & Hm' & Hh0).
  assert (idx' = idx) as -> by congruence.
  destruct (Hres d idx Hd Hh0) as (? & ? & ?). by rewrite Hdti.
Qed.

(** X14: running again with the same replies and without the force flag
    after a run that finished finds no new date: the second run exits with
    status 0 and leaves the files of the first run as they are. *)
Theorem rerun_exits_early env fs :
  force_rebuild env = false →
  res_outcome (run date_str_of_index env fs) = Finished →
  run date_str_of_index env (res_files (run date_str_of_index env fs))
  = {| res_outcome := Exited 0;
       res_files := res_files (run date_str_of_index env fs);
       res_trace := [EvPrint MsgNoNewDates] |}.
Proof.
  intros Hforce
    (m & new & h0 & st & t & newest & Hinit & Hcount & Hm & _ & Hnew & _ & _
     & Hidx & _ & Hrun & _ & Hfiles & _)%finished_run_facts.
  destruct (processed_cache_files env fs m new h0 st Hnew Hidx Hrun)
    as [Hnewd Hold].
  set (fs1 := res_files (run date_str_of_index env fs)) in *.
  assert (found_new_dates date_str_of_index env fs1 = Some []) as Hnone.
  { unfold found_new_dates. rewrite Hm. simpl. f_equal.
    destruct (classify_lists (force_rebuild env) (cache fs1) (load_history fs1) m)
      as [-> _].
    apply filter_none. intros d Hd [Hf|Hc]; [congruence|].
    rewrite Hfiles in Hc. simpl in Hc.
    destruct (decide (d ∈ new)) as [Hin|Hnin].
    - apply elem_of_gee_keys, elem_of_dom in Hd as [idx Hd].
      destruct (Hnewd d idx Hin Hd) as [Hsome _]. congruence.
    - destruct (Hold d Hnin) as [Hsame _]. apply Hnin.
      rewrite Hnew. apply list_elem_of_filter. split; [|done].
      right. congruence. }
  destruct (run_cases date_str_of_index env fs1)
    as [[? _]|[(_ & ? & _)|[(_ & ? & _)|[(_ & _ & _ & ->)|
        [(_ & ? & _)|(_ & _ & (new2 & ? & ?) & _)]]]]]; try congruence.
  destruct Hcount; congruence.
Qed.

(** X15: a run changes neither the cache file nor the pixel count of a date
    that is not among its new dates. *)
Theorem other_dates_untouched env fs new d :
  found_new_dates date_str_of_index env fs = Some new →
  d ∉ new →
  cache (res_files (run date_str_of_index env fs)) !! d = cache fs !! d ∧
  pixel_counts (load_history (res_files (run date_str_of_index env fs))) !! d
  = pixel_counts (load_history fs) !! d.
Proof.
  intros Hfound Hd.
  destruct (run_cases date_str_of_index env fs)
    as [[_ ->]|[(_ & _ & _ & ->)|[(_ & _ & ->)|[(_ & _ & _ & ->)|
        [(_ & _ & _ & _ & -> & _)|(_ & _ & _ & Hfin)]]]]]; try done.
  apply finished_run_facts in Hfin
    as (m & new' & h0 & st & t & newest & _ & _ & _ & Hfound' & Hnew & _ & Hpc
        & Hidx & _ & Hrun & _ & -> & _).
  assert (new' = new) as -> by congruence.
  destruct (processed_cache_files env fs m new h0 st Hnew Hidx Hrun)
    as [_ Hold].
  unfold load_history at 1. simpl. destruct (Hold d Hd) as [-> ->].
  by rewrite Hpc.
Qed.


(** X17: the three maps a finished run saves carry one title: its first and
    last dates are the earliest and the latest date of the saved ledger, its
    day count is the number of ledger dates, its field count the number of
    fields, its pixel total the sum of the ledger's pixel counts, and its
    newest date the content of the marker file. *)
Theorem title_of_finished_run env fs :
  res_outcome (run date_str_of_index env fs) = Finished →
  ∃ h' t mi mw mg,
    history_file (res_files (run date_str_of_index env fs)) = Some h' ∧
    index_html (res_files (run date_str_of_index env fs)) = Some mi ∧
    title mi = t ∧
    ndwi_html (res_files (run date_str_of_index env fs)) = Some mw ∧
    title mw = t ∧
    gndvi_html (res_files (run date_str_of_index env fs)) = Some mg ∧
    title mg = t ∧
    (title_first t ∈ dates h' ∧
     ∀ d, d ∈ dates h' → String.le (title_first t) d) ∧
    (title_last t ∈ dates h' ∧
     ∀ d, d ∈ dates h' → String.le d (title_last t)) ∧
    title_days t = length (dates h') ∧
    title_fields t = length (fields_info env) ∧
    title_pixels t = sum_values (pixel_counts h') ∧
    state_file (res_files (run date_str_of_index env fs))
    = Some (title_newest t).
Proof.
  intros
    (m & new & h0 & st & t & newest & _ & _ & _ & _ & _ & _ & _
     & _ & Hlast & _ & Ht & Hfiles & _)%finished_run_facts.
  unfold build_title in Ht.
  destruct (head (sorted _)) as [first|] eqn:Hh; [|done].
  destruct (last (sorted _)) as [lst|] eqn:Hl; [|done].
  rewrite Hlast in Ht. injection Ht as <-.
  rewrite Hfiles. simpl.
  eexists (st_history st), _, _, _, _.
  split_and!; try done; simpl;
    try (by apply sorted_head_min); try (by apply sorted_last_max).
  unfold sorted. by rewrite merge_sort_Permutation.
Qed.

(** X20: a finished run writes the three maps, the ledger and the marker
    file, in this order, as its last effects; before them it writes exactly
    the cache files of the new dates and no other file. *)
Theorem finished_run_writes_last env fs new :
  res_outcome (run date_str_of_index env fs) = Finished →
  found_new_dates date_str_of_index env fs = Some new →
  ∃ pre, res_trace (run date_str_of_index env fs) = pre ++ final_writes ∧
    ∀ p, EvWrite p ∈ pre ↔ ∃ d, p = CacheFile d ∧ d ∈ new.
Proof.
  intros (m & new' & h0 & st & t & newest & _ & _ & _ & Hfound & _ & _ & _
          & Hidx & _ & Hrun & _ & _ & ->)%finished_run_facts.
  rewrite Hfound. intros [= <-]. eexists. split; [done|].
  destruct (process_dates_writes env new'
              {| st_history := h0; st_cache := cache fs; st_trace := [] |} st)
    as (delta & Hdelta & Hw); [|done|].
  { intros d (idx & _ & ?)%Hidx. simpl. eauto. }
  simpl in Hdelta. rewrite render_spec. simpl. rewrite Hdelta.
  intros p. rewrite elem_of_app, Hw. split; [|by left].
  intros [?|Hr]; [done|].
  apply list_elem_of_fmap in Hr as (d & He & _).
  by destruct (render_event_is_print (st_cache st) d) as [msg Hmsg];
    rewrite Hmsg in He.
Qed.
End finished_run.

Lemma ledger_dates_after_run_witness :
  (res_outcome (run sentinel_date_str two_dates_env cached_files) = Finished ∧
   found_new_dates sentinel_date_str two_dates_env cached_files
   = Some ["2025-12-08"]) ∧
  ∃ h', history_file (res_files (run sentinel_date_str two_dates_env
                                     cached_files)) = Some h' ∧
    dates h'
    = dates (load_history cached_files)
      ++ filter (λ d, d ∉ dates (load_history cached_files)) ["2025-12-08"] ∧
    (∀ d, d ∈ ["2025-12-08"] → d ∈ dates h') ∧
    (NoDup (dates (load_history cached_files)) → NoDup (dates h')).
Proof.
  assert (res_outcome (run sentinel_date_str two_dates_env cached_files)
          = Finished) as H1 by (vm_compute; reflexivity).
  assert (found_new_dates sentinel_date_str two_dates_env cached_files
          = Some ["2025-12-08"]) as H2 by (vm_compute; reflexivity).
  split; [by split|].
  exact (ledger_dates_after_run sentinel_date_str two_dates_env cached_files
           _ H1 H2).
Defined.

Lemma marker_is_latest_new_date_witness :
  (res_outcome (run sentinel_date_str two_dates_env no_files) = Finished ∧
   found_new_dates sentinel_date_str two_dates_env no_files
   = Some ["2025-12-03"; "2025-12-08"]) ∧
  ∃ d, state_file (res_files (run sentinel_date_str two_dates_env no_files))
       = Some d ∧
       d ∈ ["2025-12-03"; "2025-12-08"] ∧
       ∀ d', d' ∈ ["2025-12-03"; "2025-12-08"] → String.le d' d.
Proof.
  assert (res_outcome (run sentinel_date_str two_dates_env no_files)
          = Finished) as H1 by (vm_compute; reflexivity).
  assert (found_new_dates sentinel_date_str two_dates_env no_files
          = Some ["2025-12-03"; "2025-12-08"]) as H2
    by (vm_compute; reflexivity).
  split; [by split|].
  exact (marker_is_latest_new_date sentinel_date_str two_dates_env no_files
           _ H1 H2).
Defined.

Lemma rerun_exits_early_witness :
  (force_rebuild example_env = false ∧
   res_outcome (run sentinel_date_str example_env no_files) = Finished) ∧
  run sentinel_date_str example_env
      (res_files (run sentinel_date_str example_env no_files))
  = {| res_outcome := Exited 0;
       res_files := res_files (run sentinel_date_str example_env no_files);
       res_trace := [EvPrint MsgNoNewDates] |}.
Proof.
  assert (force_rebuild example_env = false) as H1 by reflexivity.
  assert (res_outcome (run sentinel_date_str example_env no_files)
          = Finished) as H2 by (vm_compute; reflexivity).
  split; [by split|].
  exact (rerun_exits_early sentinel_date_str example_env no_files H1 H2).
Defined.

Lemma other_dates_untouched_witness :
  (found_new_dates sentinel_date_str two_dates_env cached_files
   = Some ["2025-12-08"] ∧
   "2025-12-03" ∉ ["2025-12-08"]) ∧
  cache (res_files (run sentinel_date_str two_dates_env cached_files))
    !! "2025-12-03"
  = cache cached_files !! "2025-12-03" ∧
  pixel_counts (load_history
                  (res_files (run sentinel_date_str two_dates_env
                                  cached_files))) !! "2025-12-03"
  = pixel_counts (load_history cached_files) !! "2025-12-03".
Proof.
  assert (found_new_dates sentinel_date_str two_dates_env cached_files
          = Some ["2025-12-08"]) as H1 by (vm_compute; reflexivity).
  assert ("2025-12-03" ∉ ["2025-12-08"]) as H2
    by (apply (bool_decide_unpack _); vm_compute; exact I).
  split; [by split|].
  exact (other_dates_untouched sentinel_date_str two_dates_env cached_files
           _ _ H1 H2).
Defined.


Lemma title_of_finished_run_witness :
  res_outcome (run sentinel_date_str two_dates_env no_files) = Finished ∧
  ∃ h' t mi mw mg,
    history_file (res_files (run sentinel_date_str two_dates_env no_files))
    = Some h' ∧
    index_html (res_files (run sentinel_date_str two_dates_env no_files))
    = Some mi ∧ title mi = t ∧
    ndwi_html (res_files (run sentinel_date_str two_dates_env no_files))
    = Some mw ∧ title mw = t ∧
    gndvi_html (res_files (run sentinel_date_str two_dates_env no_files))
    = Some mg ∧ title mg = t ∧
    (title_first t ∈ dates h' ∧
     ∀ d, d ∈ dates h' → String.le (title_first t) d) ∧
    (title_last t ∈ dates h' ∧
     ∀ d, d ∈ dates h' → String.le d (title_last t)) ∧
    title_days t = length (dates h') ∧
    title_fields t = length (fields_info two_dates_env) ∧
    title_pixels t = sum_values (pixel_counts h') ∧
    state_file (res_files (run sentinel_date_str two_dates_env no_files))
    = Some (title_newest t).
Proof.
  assert (res_outcome (run sentinel_date_str two_dates_env no_files)
          = Finished) as H by (vm_compute; reflexivity).
  split; [exact H|].
  exact (title_of_finished_run sentinel_date_str two_dates_env no_files H).
Defined.

Lemma finished_run_writes_last_witness :
  (res_outcome (run sentinel_date_str two_dates_env no_files) = Finished ∧
   found_new_dates sentinel_date_str two_dates_env no_files
   = Some ["2025-12-03"; "2025-12-08"]) ∧
  ∃ pre, res_trace (run sentinel_date_str two_dates_env no_files)
         = pre ++ final_writes ∧
    ∀ p, EvWrite p ∈ pre ↔
         ∃ d, p = CacheFile d ∧ d ∈ ["2025-12-03"; "2025-12-08"].
Proof.
  assert (res_outcome (run sentinel_date_str two_dates_env no_files)
          = Finished) as H1 by (vm_compute; reflexivity).
  assert (found_new_dates sentinel_date_str two_dates_env no_files
          = Some ["2025-12-03"; "2025-12-08"]) as H2
    by (vm_compute; reflexivity).
  split; [by split|].
  exact (finished_run_writes_last sentinel_date_str two_dates_env no_files
           _ H1 H2).
Defined.

(** ** Colour tables, cloud mask and addresses *)

(** X18: each colour table gives the neutral gray exactly to a missing value
    and to NaN. *)
Theorem gray_iff_missing v :
  let missing := v = None ∨ ∃ f, v = Some f ∧ isnan f = true in
  (get_ndvi_color v = "#808080" ↔ missing) ∧
  (get_ndwi_color v = "#808080" ↔ missing) ∧
  (get_gndvi_color v = "#808080" ↔ missing).
Proof.
  simpl. destruct v as [f|]; simpl.
  - destruct (isnan f) eqn:Hn.
    + split_and!; (split; [intros _; right; by exists f|done]).
    + split_and!;
        repeat match goal with
               | |- context [SFltb ?a ?b] => destruct (SFltb a b)
               end;
        (split; [done|intros [?|(f' & [= <-] & ?)]; congruence]).
  - split_and!; (split; [by left|done]).
Qed.

Lemma land_bit_zero a n :
  0 ≤ n → Z.land a (Z.shiftl 1 n) = 0 ↔ Z.testbit a n = false.
Proof.
  intros Hn. rewrite Z.shiftl_1_l. split.
  - intros H. apply (f_equal (λ x, Z.testbit x n)) in H.
    rewrite Z.land_spec, Z.pow2_bits_true, Z.bits_0, andb_true_r in H; done.
  - intros H. apply Z.bits_inj'. intros m Hm.
    rewrite Z.land_spec, Z.pow2_bits_eqb, Z.bits_0 by done.
    destruct (Z.eqb_spec n m) as [<-|]; [by rewrite H|by rewrite andb_false_r].
Qed.

(** X19: the cloud mask keeps a pixel exactly when bits 10 and 11 of its
    [QA60] value are both clear; a kept band value is divided by 10000 and a
    masked pixel has no value. *)
Theorem mask_s2_clouds_keeps qa dn :
  (cloud_mask qa = true ↔
   Z.testbit qa 10 = false ∧ Z.testbit qa 11 = false) ∧
  (∀ v, mask_s2_clouds qa dn = Some v ↔
        cloud_mask qa = true ∧ v = divide_10000 dn) ∧
  (mask_s2_clouds qa dn = None ↔ cloud_mask qa = false).
Proof.
  split_and!.
  - unfold cloud_mask. rewrite andb_true_iff, !Z.eqb_eq.
    by rewrite !land_bit_zero.
  - intros v. unfold mask_s2_clouds. destruct (cloud_mask qa).
    + split; [by intros [= <-]|by intros [_ ->]].
    + split; [done|by intros [? _]].
  - unfold mask_s2_clouds. by destruct (cloud_mask qa).
Qed.

Lemma lookup_address_filter df u :
  filter (λ row : string * string, row.1 = u) df = [] ↔
  ∀ row, row ∈ df → row.1 ≠ u.
Proof.
  split.
  - intros H row Hrow Hu. by apply (filter_nil_not_elem_of _ _ row H).
  - intros H. by apply filter_none.
Qed.

(** X21: the address of a field is the address of the first row of the
    spreadsheet with the field's identifier; it is ['不明'] when no row has the
    identifier or the field has none. *)
Theorem lookup_address_first_row df uu :
  match uu with
  | None => lookup_address df uu = "不明"
  | Some u =>
      (∀ rows1 a rows2,
         df = rows1 ++ (u, a) :: rows2 →
         (∀ row, row ∈ rows1 → row.1 ≠ u) →
         lookup_address df uu = a) ∧
      ((∀ row, row ∈ df → row.1 ≠ u) → lookup_address df uu = "不明")
  end.
Proof.
  destruct uu as [u|]; [|done]. split.
  - intros rows1 a rows2 -> Hrows1. unfold lookup_address.
    rewrite filter_app, (filter_none _ rows1) by done.
    rewrite filter_cons, decide_True by done. done.
  - intros H. unfold lookup_address. by rewrite filter_none.
Qed.

(** ** Invariants of the files *)

Lemma filter_all {A} (P : A → Prop) `{!∀ x, Decision (P x)} (l : list A) :
  (∀ x, x ∈ l → P x) → filter P l = l.
Proof.
  induction l as [|x l IH]; intros Hl; [done|].
  rewrite filter_cons, decide_True by (apply Hl; left).
  f_equal. apply IH. intros y Hy. apply Hl. by right.
Qed.

Lemma process_dates_well_keyed env ds : ∀ st e st',
  process_dates env ds st = (e, st') →
  cache_well_keyed (st_cache st) → cache_well_keyed (st_cache st').
Proof.
  induction ds as [|d0 ds IH]; intros st e st'; simpl.
  - by intros [= <- <-].
  - destruct (date_to_index (st_history st) !! d0) as [idx|] eqn:E.
    2: { rewrite (process_date_raises _ _ _ E). by intros [= <- <-]. }
    rewrite (process_date_ok _ _ _ _ E). intros Hrun Hc.
    apply (IH _ _ _ Hrun). simpl. intros d dc.
    rewrite lookup_insert. destruct (decide (d0 = d)) as [<-|Hne].
    + by intros [= <-].
    + exact (Hc d dc).
Qed.

Lemma classify_index_mono force c h m d :
  is_Some (date_to_index h !! d) →
  is_Some (date_to_index (classify force c h m).2 !! d).
Proof.
  intros Hd. unfold classify.
  destruct (m !! d) as [idx|] eqn:Hm.
  - destruct (decide (is_new_date force c d)) as [Hn|Hn].
    + destruct (classify_history force c h m) as (_ & _ & H).
      unfold classify in H. rewrite (H d idx Hm Hn). eauto.
    + pose proof (classify_fold_existing force c (sorted_items m) ([], [], h)
                    (gee_keys_NoDup m) d idx) as H.
      rewrite H; [eauto| |done]. by apply elem_of_sorted_items.
  - destruct (classify_fold_history force c (sorted_items m) ([], [], h))
      as (_ & _ & Hf & _).
    rewrite Hf; [done|]. fold (gee_keys m).
    rewrite elem_of_gee_keys, elem_of_dom, Hm. by intros [].
Qed.

Section file_invariants.
Variable date_str_of_index : string → option string.

Lemma finished_run_ledger_index env fs :
  res_outcome (run date_str_of_index env fs) = Finished →
  ∃ m h',
    gee_dates date_str_of_index env = Some m ∧
    history_file (res_files (run date_str_of_index env fs)) = Some h' ∧
    date_to_index h'
    = date_to_index (classify (force_rebuild env) (cache fs)
                              (load_history fs) m).2.
Proof.
  intros (m & st & t & newest & _ & _ & Hm & _ & Hrun & _ & -> & _)%run_finished_inv.
  apply process_dates_frame in Hrun as (Hdti & _).
  exists m, (st_history st). by split_and!.
Qed.

(** X22: if every cache file holds the record of the date it is named after
    when a run starts, so does every cache file the run leaves. *)
Theorem run_keeps_cache_keys env fs :
  cache_well_keyed (cache fs) →
  cache_well_keyed (cache (res_files (run date_str_of_index env fs))).
Proof.
  intros Hc.
  destruct (run_cases date_str_of_index env fs)
    as [[_ ->]|[(_ & _ & _ & ->)|[(_ & _ & ->)|[(_ & _ & _ & ->)|
        [(_ & _ & _ & _ & -> & _)|(_ & _ & _ & Hfin)]]]]]; try done.
  apply finished_run_facts in Hfin
    as (m & new & h0 & st & t & newest & _ & _ & _ & _ & _ & _ & _
        & _ & _ & Hrun & _ & -> & _).
  simpl. by apply (process_dates_well_keyed _ _ _ _ _ Hrun).
Qed.

(** X23: if every date of the ledger has a source identifier and a pixel
    count when a run starts, the same holds for the ledger the run leaves. *)
Theorem run_keeps_ledger_complete env fs :
  ledger_complete (load_history fs) →
  ledger_complete (load_history (res_files (run date_str_of_index env fs))).
Proof.
  intros Hl.
  destruct (run_cases date_str_of_index env fs)
    as [[_ ->]|[(_ & _ & _ & ->)|[(_ & _ & ->)|[(_ & _ & _ & ->)|
        [(_ & _ & _ & _ & -> & _)|(_ & _ & _ & Hfin)]]]]]; try done.
  destruct (finished_run_ledger_index env fs Hfin) as (m' & h' & Hm' & Hh' & Hi').
  apply finished_run_facts in Hfin
    as (m & new & h0 & st & t & newest & _ & _ & Hm & _ & Hnew & Hdates
        & Hpc & Hidx & _ & Hrun & _ & Hfiles & _).
  assert (m' = m) as -> by congruence.
  rewrite Hfiles in Hh'. simpl in Hh'. injection Hh' as <-.
  rewrite Hfiles. unfold load_history at 1. simpl.
  destruct (processed_cache_files env fs m new h0 st Hnew Hidx Hrun)
    as [Hnewd Hold].
  assert (NoDup new) as Hnd
    by (rewrite Hnew; apply NoDup_filter, gee_keys_NoDup).
  intros d. rewrite (process_dates_dates _ _ _ _ Hnd Hrun). simpl.
  destruct (decide (d ∈ new)) as [Hin|Hnin].
  - intros _. destruct (Hidx d Hin) as (idx & Hmd & _).
    destruct (Hnewd d idx Hin Hmd) as (_ & -> & -> & _). eauto.
  - rewrite elem_of_app, list_elem_of_filter, Hdates.
    intros [Hd|[_ ?]]; [|done].
    destruct (Hl d Hd) as [Hi Hp]. destruct (Hold d Hnin) as [_ ->].
    rewrite Hi', Hpc. split; [|done]. by apply classify_index_mono.
Qed.

(** X24: after a run that finishes, every new date has a layer on each of
    the three maps. *)
Theorem new_dates_are_rendered env fs new d :
  res_outcome (run date_str_of_index env fs) = Finished →
  found_new_dates date_str_of_index env fs = Some new →
  d ∈ new →
  ∃ mi mw mg,
    index_html (res_files (run date_str_of_index env fs)) = Some mi ∧
    ndwi_html (res_files (run date_str_of_index env fs)) = Some mw ∧
    gndvi_html (res_files (run date_str_of_index env fs)) = Some mg ∧
    "NDVI_" +:+ d ∈ name <$> layers mi ∧
    "NDWI_" +:+ d ∈ name <$> layers mw ∧
    "GNDVI_" +:+ d ∈ name <$> layers mg.
Proof.
  intros (m & new' & h0 & st & t & newest & _ & _ & _ & Hfound & Hnew & _
          & _ & Hidx & _ & Hrun & _ & -> & _)%finished_run_facts.
  rewrite Hfound. intros [= <-] Hd. simpl.
  destruct (processed_cache_files env fs m new' h0 st Hnew Hidx Hrun)
    as [Hnewd _].
  destruct (Hidx d Hd) as (idx & Hmd & _).
  destruct (Hnewd d idx Hd Hmd) as (Hc & _ & _ & Hdates).
  eexists _, _, _. split_and!; [done..| | |]; simpl;
    rewrite render_spec; simpl; rewrite layers_for_names;
    apply list_elem_of_fmap_2, list_elem_of_filter;
    (split; [by rewrite Hc|]);
    unfold sorted; by rewrite merge_sort_Permutation.
Qed.

(** X25: when every date of the starting ledger has a cache file, each map
    of a finished run has exactly one layer per date of the saved ledger, in
    ascending date order. *)
Theorem consistent_ledger_fully_rendered env fs :
  files_consistent fs →
  res_outcome (run date_str_of_index env fs) = Finished →
  ∃ h' mi mw mg,
    history_file (res_files (run date_str_of_index env fs)) = Some h' ∧
    index_html (res_files (run date_str_of_index env fs)) = Some mi ∧
    ndwi_html (res_files (run date_str_of_index env fs)) = Some mw ∧
    gndvi_html (res_files (run date_str_of_index env fs)) = Some mg ∧
    name <$> layers mi = (λ d, "NDVI_" +:+ d) <$> sorted (dates h') ∧
    name <$> layers mw = (λ d, "NDWI_" +:+ d) <$> sorted (dates h') ∧
    name <$> layers mg = (λ d, "GNDVI_" +:+ d) <$> sorted (dates h').
Proof.
  intros Hfs
    (m & new & h0 & st & t & newest & _ & _ & _ & _ & _ & Hdates
     & _ & _ & _ & Hrun & _ & -> & _)%finished_run_facts.
  apply process_dates_frame in Hrun as (_ & _ & _ & _ & Hinv & _).
  simpl in Hinv.
  assert (ledger_consistent (st_history st) (st_cache st)) as Hst.
  { apply Hinv. intros d Hd. apply Hfs. by rewrite <-Hdates. }
  assert (filter (λ d, is_Some (st_cache st !! d)) (sorted (dates (st_history st)))
          = sorted (dates (st_history st))) as Hall.
  { apply filter_all. intros d Hd. apply Hst.
    unfold sorted in Hd. by rewrite merge_sort_Permutation in Hd. }
  simpl. eexists _, _, _, _. split_and!; [done..| | |]; simpl;
    rewrite render_spec; simpl; by rewrite layers_for_names, Hall.
Qed.
End file_invariants.

Lemma run_keeps_cache_keys_witness :
  cache_well_keyed (cache cached_files) ∧
  cache_well_keyed
    (cache (res_files (run sentinel_date_str two_dates_env cached_files))).
Proof.
  assert (cache_well_keyed (cache cached_files)) as H
    by (apply (bool_decide_unpack _); vm_compute; exact I).
  split; [exact H|].
  exact (run_keeps_cache_keys sentinel_date_str two_dates_env cached_files H).
Defined.

Lemma run_keeps_ledger_complete_witness :
  ledger_complete (load_history cached_files) ∧
  ledger_complete
    (load_history (res_files (run sentinel_date_str two_dates_env
                                  cached_files))).
Proof.
  assert (ledger_complete (load_history cached_files)) as H
    by (apply (bool_decide_unpack _); vm_compute; exact I).
  split; [exact H|].
  exact (run_keeps_ledger_complete sentinel_date_str two_dates_env
           cached_files H).
Defined.

Lemma new_dates_are_rendered_witness :
  (res_outcome (run sentinel_date_str two_dates_env cached_files) = Finished ∧
   found_new_dates sentinel_date_str two_dates_env cached_files
   = Some ["2025-12-08"] ∧
   "2025-12-08" ∈ ["2025-12-08"]) ∧
  ∃ mi mw mg,
    index_html (res_files (run sentinel_date_str two_dates_env cached_files))
    = Some mi ∧
    ndwi_html (res_files (run sentinel_date_str two_dates_env cached_files))
    = Some mw ∧
    gndvi_html (res_files (run sentinel_date_str two_dates_env cached_files))
    = Some mg ∧
    "NDVI_" +:+ "2025-12-08" ∈ name <$> layers mi ∧
    "NDWI_" +:+ "2025-12-08" ∈ name <$> layers mw ∧
    "GNDVI_" +:+ "2025-12-08" ∈ name <$> layers mg.
Proof.
  assert (res_outcome (run sentinel_date_str two_dates_env cached_files)
          = Finished) as H1 by (vm_compute; reflexivity).
  assert (found_new_dates sentinel_date_str two_dates_env cached_files
          = Some ["2025-12-08"]) as H2 by (vm_compute; reflexivity).
  assert ("2025-12-08" ∈ ["2025-12-08"]) as H3 by left.
  split; [by split_and!|].
  exact (new_dates_are_rendered sentinel_date_str two_dates_env cached_files
           _ _ H1 H2 H3).
Defined.

Lemma consistent_ledger_fully_rendered_witness :
  (files_consistent cached_files ∧
   res_outcome (run sentinel_date_str two_dates_env cached_files)
   = Finished) ∧
  ∃ h' mi mw mg,
    history_file (res_files (run sentinel_date_str two_dates_env
                                 cached_files)) = Some h' ∧
    index_html (res_files (run sentinel_date_str two_dates_env cached_files))
    = Some mi ∧
    ndwi_html (res_files (run sentinel_date_str two_dates_env cached_files))
    = Some mw ∧
    gndvi_html (res_files (run sentinel_date_str two_dates_env cached_files))
    = Some mg ∧
    name <$> layers mi = (λ d, "NDVI_" +:+ d) <$> sorted (dates h') ∧
    name <$> layers mw = (λ d, "NDWI_" +:+ d) <$> sorted (dates h') ∧
    name <$> layers mg = (λ d, "GNDVI_" +:+ d) <$> sorted (dates h').
Proof.
  assert (files_consistent cached_files) as H1
    by (apply (bool_decide_unpack _); vm_compute; exact I).
  assert (res_outcome (run sentinel_date_str two_dates_env cached_files)
          = Finished) as H2 by (vm_compute; reflexivity).
  split; [by split|].
  exact (consistent_ledger_fully_rendered sentinel_date_str two_dates_env
           cached_files H1 H2).
Defined.
